(** * azubi-va: the text-to-speech Lambda handler of [backend/app.py]

    A shallow embedding of the handler and of the Python values it works
    on, followed by the properties of the handler that the specification
    states.

    - Python [str] is a list of Unicode code points, [bytes] a list of
      bytes, [int] is [Z], [float] a binary64 float.
    - An exception is a class together with the text [str(e)] gives.
    - The AWS clients, the random source, the environment variables and
      the table-driven parts of the Python runtime are fields of an
      environment record [Env]; the handler is a function of the
      environment, the Lambda context and the event.
    - Calls to the outside world are recorded, in order, in a trace. *)

From Stdlib Require Import List ZArith NArith Lia Bool.
From Stdlib.Strings Require Import String Ascii Byte.
From Stdlib Require Import PrimFloat DecimalString HexadecimalString.
Import ListNotations.
Local Open Scope Z_scope.
Set Warnings "-register-all".

(** ** Python values *)

Module Py.

(** A [str]: its code points, in order. *)
Definition pystr := list N.

(** A [bytes] object. *)
Definition pybytes := list byte.

(** A string literal of the source (ASCII). *)
Definition lit (s : string) : pystr :=
  map N_of_ascii (list_ascii_of_string s).

(** The same with a backquote standing for the double quote, to write
    JSON texts. *)
Definition json_lit (s : string) : pystr :=
  map (fun c => if (c =? 96)%N then 34%N else c) (lit s).

Fixpoint str_eqb (a b : pystr) : bool :=
  match a, b with
  | [], [] => true
  | x :: a', y :: b' => N.eqb x y && str_eqb a' b'
  | _, _ => false
  end.

(** The values [json.loads] and the Lambda runtime produce. A [dict]
    keeps its keys in insertion order, as Python's does. *)
Inductive pyval :=
| PNone
| PBool (b : bool)
| PInt (z : Z)
| PFloat (f : float)
| PStr (s : pystr)
| PList (l : list pyval)
| PDict (d : list (pystr * pyval)).

(** [bool(v)] *)
Definition truthy (v : pyval) : bool :=
  match v with
  | PNone => false
  | PBool b => b
  | PInt z => negb (z =? 0)
  | PFloat f => negb (PrimFloat.eqb f PrimFloat.zero)
  | PStr s => match s with [] => false | _ => true end
  | PList l => match l with [] => false | _ => true end
  | PDict d => match d with [] => false | _ => true end
  end.

(** [a or b] *)
Definition py_or (a b : pyval) : pyval := if truthy a then a else b.

(** [type(v).__name__] *)
Definition type_name (v : pyval) : pystr :=
  match v with
  | PNone => lit "NoneType"
  | PBool _ => lit "bool"
  | PInt _ => lit "int"
  | PFloat _ => lit "float"
  | PStr _ => lit "str"
  | PList _ => lit "list"
  | PDict _ => lit "dict"
  end.

(** *** Exceptions *)

(** The classes the handler tells apart, and those its own code raises.
    A class may stand under two of the classes the handler looks for:
    [BotoCoreValueError] is a [BotoCoreError] and a [ValueError].
    [OtherException] is any further subclass of [Exception];
    [NonException] is a [BaseException] outside [Exception]
    ([KeyboardInterrupt], [SystemExit]). *)
Inductive exc_class :=
| ValueError
| BinasciiError        (* binascii.Error, a subclass of ValueError *)
| AttributeError
| TypeError
| KeyError
| RuntimeError
| BotoCoreError
| ClientError
| BotoCoreValueError   (* a botocore error that is a ValueError as well:
                          InvalidRegionError, UnknownEndpointError *)
| OtherException
| NonException.

Record pyexc := mkExc { exc_cls : exc_class; exc_str : pystr }.

Definition is_ValueError (e : pyexc) : bool :=
  match exc_cls e with
  | ValueError | BinasciiError | BotoCoreValueError => true
  | _ => false
  end.

Definition is_aws_error (e : pyexc) : bool :=
  match exc_cls e with
  | BotoCoreError | ClientError | BotoCoreValueError => true
  | _ => false
  end.

Definition is_Exception (e : pyexc) : bool :=
  match exc_cls e with NonException => false | _ => true end.

Inductive result (A : Type) :=
| Ok (a : A)
| Raise (e : pyexc).
Arguments Ok {A} a.
Arguments Raise {A} e.

Definition rbind {A B} (r : result A) (k : A -> result B) : result B :=
  match r with
  | Ok a => k a
  | Raise e => Raise e
  end.

(** [obj.<meth>] on an object without that attribute *)
Definition no_attribute {A} (v : pyval) (meth : string) : result A :=
  Raise (mkExc AttributeError
    (lit "'" ++ type_name v ++ lit "' object has no attribute '" ++ lit meth ++ lit "'")).

(** *** dict *)

Fixpoint dict_get {V} (d : list (pystr * V)) (k : pystr) : option V :=
  match d with
  | [] => None
  | (k', v) :: d' => if str_eqb k' k then Some v else dict_get d' k
  end.

(** [d.get(k, default)] on a dict *)
Definition get_or {V} (d : list (pystr * V)) (k : pystr) (default : V) : V :=
  match dict_get d k with
  | Some v => v
  | None => default
  end.

(** [obj.get(k, default)] on any object *)
Definition py_get (obj : pyval) (k : pystr) (default : pyval) : result pyval :=
  match obj with
  | PDict d => Ok (get_or d k default)
  | _ => no_attribute obj "get"
  end.

(** *** str methods *)

(** The code points [str.strip()] removes ([Py_UNICODE_ISSPACE]). *)
Definition is_space (c : N) : bool :=
  (((9 <=? c) && (c <=? 13)) || ((28 <=? c) && (c <=? 32))
   || (c =? 133) || (c =? 160) || (c =? 5760)
   || ((8192 <=? c) && (c <=? 8202))
   || (c =? 8232) || (c =? 8233) || (c =? 8239) || (c =? 8287)
   || (c =? 12288))%N.

Fixpoint lstrip (s : pystr) : pystr :=
  match s with
  | [] => []
  | c :: s' => if is_space c then lstrip s' else s
  end.

Definition rstrip (s : pystr) : pystr := rev (lstrip (rev s)).

Definition strip (s : pystr) : pystr := rstrip (lstrip s).

(** [v.strip()] *)
Definition py_strip (v : pyval) : result pystr :=
  match v with
  | PStr s => Ok (strip s)
  | _ => no_attribute v "strip"
  end.

(** [str.lower()]: an ASCII letter is mapped here. The mapping of a code
    point from 128 up comes from the Unicode tables of the runtime; it may
    give several code points and, for the Greek capital sigma, it looks at
    the code points before and after. *)
Fixpoint lower_from (unicode_lower : pystr -> N -> pystr -> pystr)
    (before s : pystr) : pystr :=
  match s with
  | [] => []
  | c :: after =>
      (if ((65 <=? c) && (c <=? 90))%N then [(c + 32)%N]
       else if (c <? 128)%N then [c]
       else unicode_lower before c after)
      ++ lower_from unicode_lower (before ++ [c]) after
  end.

Definition lower_with (unicode_lower : pystr -> N -> pystr -> pystr) (s : pystr)
  : pystr :=
  lower_from unicode_lower [] s.

(** [sep.join(parts)] *)
Fixpoint join (sep : pystr) (parts : list pystr) : pystr :=
  match parts with
  | [] => []
  | [p] => p
  | p :: rest => p ++ sep ++ join sep rest
  end.

(** [str(z)] for an [int] *)
Definition str_of_int (z : Z) : pystr :=
  lit (DecimalString.NilZero.string_of_int (Z.to_int z)).

(** [len(s)] *)
Definition len (s : pystr) : Z := Z.of_nat (List.length s).

(** *** Hexadecimal formatting *)

Definition hex_digit (d : N) : N :=
  (if d <? 10 then 48 + d else 87 + d)%N.

(** The [k] low hexadecimal digits of [n], most significant first:
    ['%0kx' % n] for [n < 16^k]. *)
Fixpoint hex_digits (k : nat) (n : N) : pystr :=
  match k with
  | O => []
  | S k' => hex_digits k' (N.shiftr n 4) ++ [hex_digit (N.land n 15)]
  end.

(** *** json.dumps *)

(** One code point inside a JSON string, [ensure_ascii=True]. *)
Definition json_escape (c : N) : pystr :=
  (if c =? 92 then [92; 92]
   else if c =? 34 then [92; 34]
   else if c =? 8 then lit "\b"
   else if c =? 12 then lit "\f"
   else if c =? 10 then lit "\n"
   else if c =? 13 then lit "\r"
   else if c =? 9 then lit "\t"
   else if (32 <=? c) && (c <=? 126) then [c]
   else if c <? 65536 then lit "\u" ++ hex_digits 4 c
   else
     let n := c - 65536 in
     let s1 := N.lor 55296 (N.land (N.shiftr n 10) 1023) in
     let s2 := N.lor 56320 (N.land n 1023) in
     lit "\u" ++ hex_digits 4 s1 ++ lit "\u" ++ hex_digits 4 s2)%N.

Definition json_str (s : pystr) : pystr :=
  [34%N] ++ flat_map json_escape s ++ [34%N].

(** [json.dumps(v)] with the default separators. The text of a [float]
    is the runtime's. *)
Fixpoint json_dumps_with (float_repr : float -> pystr) (v : pyval) : pystr :=
  match v with
  | PNone => lit "null"
  | PBool b => if b then lit "true" else lit "false"
  | PInt z => str_of_int z
  | PFloat f => float_repr f
  | PStr s => json_str s
  | PList l =>
      lit "[" ++ join (lit ", ") (map (json_dumps_with float_repr) l) ++ lit "]"
  | PDict d =>
      lit "{"
      ++ join (lit ", ")
           (map (fun kv => match kv with
                           | (k, x) => json_str k ++ lit ": " ++ json_dumps_with float_repr x
                           end) d)
      ++ lit "}"
  end.

(** *** uuid *)

(** [uuid.uuid4()] from the integer of the 16 random bytes: the variant
    and version bits are forced. *)
Definition uuid4 (r : N) : N :=
  let i := N.ldiff r (N.shiftl 49152 48) in
  let i := N.lor i (N.shiftl 32768 48) in
  let i := N.ldiff i (N.shiftl 61440 64) in
  N.lor i (N.shiftl 4 76).

(** [str(u)] for a [UUID] with integer [u]: 8-4-4-4-12 hexadecimal digits. *)
Definition str_of_uuid (u : N) : pystr :=
  let h := hex_digits 32 u in
  firstn 8 h ++ lit "-" ++ firstn 4 (skipn 8 h) ++ lit "-"
  ++ firstn 4 (skipn 12 h) ++ lit "-" ++ firstn 4 (skipn 16 h) ++ lit "-"
  ++ skipn 20 h.

End Py.

(** ** The world around the handler *)

Module World.
Import Py.

(** What [polly.synthesize_speech] returns: a dict whose ["AudioStream"]
    entry, when present, is a stream; [read()] on it gives the audio or
    raises. *)
Record polly_response := { AudioStream : option (result pybytes) }.

(** The argument of [json.loads]: the body as the event has it, or the
    bytes [base64.b64decode] produced. *)
Inductive json_source :=
| FromValue (v : pyval)
| FromBytes (b : pybytes).

Record Env := {
  (* module-level constants, read from the process environment *)
  MAX_CHARS : Z;
  URL_EXPIRY_SECONDS : Z;
  AUDIO_BUCKET : pystr;
  ALLOWED_ORIGIN : pystr;
  (* the Python runtime: [json.loads] ([None] when it raises),
     [base64.b64decode], the Unicode lower-case mapping of a code point
     from 128 up (given the code points before and after it), [repr] of a
     str, the JSON text of a float, and the integer of the 16 bytes
     [os.urandom] hands to [uuid.uuid4] *)
  json_loads : json_source -> option pyval;
  b64decode : pyval -> result pybytes;
  unicode_lower : pystr -> N -> pystr -> pystr;
  str_repr : pystr -> pystr;
  float_repr : float -> pystr;
  urandom : N;
  (* the boto3 clients *)
  polly_synthesize_speech : list (pystr * pystr) -> result polly_response;
  s3_put_object : pystr -> pystr -> pybytes -> pystr -> result unit;
  s3_generate_presigned_url : pystr -> pystr -> pystr -> Z -> result pystr
}.

(** The Lambda context object, as far as the handler looks at it. *)
Record LambdaContext := { aws_request_id : option pyval }.

(** What the handler does to the outside, in order. *)
Inductive call :=
| Print (line : pystr)
| SynthesizeSpeech (kwargs : list (pystr * pystr))
| PutObject (Bucket Key : pystr) (Body : pybytes) (ContentType : pystr)
| GeneratePresignedUrl (ClientMethod Bucket Key : pystr) (ExpiresIn : Z).

(** A computation that may call out and may raise. *)
Definition io (A : Type) : Type := list call * result A.

Definition ret {A} (a : A) : io A := ([], Ok a).

Definition lift {A} (r : result A) : io A := ([], r).

Definition perform {A} (c : call) (r : result A) : io A := ([c], r).

Definition bind {A B} (m : io A) (k : A -> io B) : io B :=
  match m with
  | (t, Ok a) => let (t', r) := k a in (t ++ t', r)
  | (t, Raise e) => (t, Raise e)
  end.

End World.

Declare Scope io_scope.
Delimit Scope io_scope with io.
Notation "x <- m ;; k" := (World.bind m (fun x => k))
  (at level 61, m at next level, right associativity) : io_scope.
Notation "' p <- m ;; k" := (World.bind m (fun x => match x with p => k end))
  (at level 61, p pattern, m at next level, right associativity) : io_scope.

Declare Scope result_scope.
Delimit Scope result_scope with result.
Notation "x <- r ;; k" := (Py.rbind r (fun x => k))
  (at level 61, r at next level, right associativity) : result_scope.

(** ** backend/app.py *)

Module App.
Import Py World.

(** *** Constants *)

Definition SUPPORTED_FORMATS : list (pystr * (pystr * pystr)) :=
  [ (lit "mp3", (lit "audio/mpeg", lit "mp3"));
    (lit "ogg_vorbis", (lit "audio/ogg", lit "ogg_vorbis"));
    (lit "pcm", (lit "audio/wave", lit "pcm")) ].

Definition DEFAULT_VOICE : pystr := lit "Joanna".

(** [SUPPORTED_FORMATS[fmt]] *)
Definition supported_format (env : Env) (fmt : pystr) : result (pystr * pystr) :=
  match dict_get SUPPORTED_FORMATS fmt with
  | Some entry => Ok entry
  | None => Raise (mkExc KeyError (str_repr env fmt))
  end.

(** *** Helpers *)

Record response := {
  statusCode : Z;
  headers : list (pystr * pystr);
  body : pystr
}.

Definition json_dumps (env : Env) : pyval -> pystr :=
  json_dumps_with (float_repr env).

Definition _json_response (env : Env) (code : Z) (payload : pyval) : response :=
  let headers :=
    [ (lit "Content-Type", lit "application/json");
      (lit "Access-Control-Allow-Origin", ALLOWED_ORIGIN env);
      (lit "Access-Control-Allow-Headers", lit "*");
      (lit "Access-Control-Allow-Methods", lit "OPTIONS,POST") ] in
  {| statusCode := code; headers := headers; body := json_dumps env payload |}.

Definition _parse_body (env : Env) (event : pyval) : result pyval :=
  (b <- py_get event (lit "body") PNone ;;
   let raw := py_or b (PStr (lit "{}")) in
   enc <- py_get event (lit "isBase64Encoded") PNone ;;
   src <- (if truthy enc
           then (decoded <- b64decode env raw ;; Ok (FromBytes decoded))
           else Ok (FromValue raw)) ;;
   match json_loads env src with
   | Some v => Ok v
   | None => Raise (mkExc ValueError (lit "Invalid JSON body"))
   end)%result.

Definition _read_inputs (env : Env) (body : pyval)
  : result (pystr * pystr * pystr * bool) :=
  (t <- py_get body (lit "text") PNone ;;
   text <- py_strip (py_or t (PStr (lit ""))) ;;
   if negb (truthy (PStr text)) then
     Raise (mkExc ValueError (lit "Field 'text' is required"))
   else if len text >? MAX_CHARS env then
     Raise (mkExc ValueError
       (lit "Text too long (" ++ str_of_int (len text) ++ lit " chars). Limit is "
        ++ str_of_int (MAX_CHARS env) ++ lit "."))
   else
     f <- py_get body (lit "format") PNone ;;
     f' <- py_strip (py_or f (PStr (lit "mp3"))) ;;
     let fmt := lower_with (unicode_lower env) f' in
     if negb (match dict_get SUPPORTED_FORMATS fmt with Some _ => true | None => false end) then
       let supported := join (lit ", ") (map fst SUPPORTED_FORMATS) in
       Raise (mkExc ValueError (lit "'format' must be one of: " ++ supported))
     else
       v <- py_get body (lit "voiceId") PNone ;;
       voice_id <- py_strip (py_or v (PStr DEFAULT_VOICE)) ;;
       s <- py_get body (lit "useSsml") (PBool false) ;;
       let use_ssml := truthy s in
       Ok (text, voice_id, fmt, use_ssml))%result.

Definition _synthesize (env : Env) (text voice_id fmt : pystr) (use_ssml : bool)
  : io pybytes :=
  (entry <- lift (supported_format env fmt) ;;
   let output_format := snd entry in
   let kwargs := [ (lit "VoiceId", voice_id); (lit "OutputFormat", output_format) ] in
   let kwargs :=
     if use_ssml
     then kwargs ++ [ (lit "TextType", lit "ssml"); (lit "Text", text) ]
     else kwargs ++ [ (lit "Text", text) ] in
   resp <- perform (SynthesizeSpeech kwargs) (polly_synthesize_speech env kwargs) ;;
   match AudioStream resp with
   | None => lift (Raise (mkExc RuntimeError (lit "Polly returned no audio stream")))
   | Some stream => lift stream
   end)%io.

Definition _store_audio (env : Env) (fmt : pystr) (data : pybytes)
  : io (pystr * pystr * pystr) :=
  (let ext :=
     if str_eqb fmt (lit "mp3") then lit "mp3"
     else if str_eqb fmt (lit "ogg_vorbis") then lit "ogg" else lit "pcm" in
   let key := lit "audio/" ++ str_of_uuid (uuid4 (urandom env)) ++ lit "." ++ ext in
   entry <- lift (supported_format env fmt) ;;
   let content_type := fst entry in
   _ <- perform (PutObject (AUDIO_BUCKET env) key data content_type)
          (s3_put_object env (AUDIO_BUCKET env) key data content_type) ;;
   url <- perform (GeneratePresignedUrl (lit "get_object") (AUDIO_BUCKET env) key
                     (URL_EXPIRY_SECONDS env))
            (s3_generate_presigned_url env (lit "get_object") (AUDIO_BUCKET env) key
               (URL_EXPIRY_SECONDS env)) ;;
   ret (key, content_type, url))%io.

(** *** Handler *)

(** The dict of the structured log line that opens [lambda_handler]. *)
Definition request_received (ctx : LambdaContext) (event : pyval) : result pyval :=
  (let request_id := match aws_request_id ctx with Some v => v | None => PNone end in
   rc <- py_get event (lit "requestContext") (PDict []) ;;
   http <- py_get rc (lit "http") (PDict []) ;;
   source_ip <- py_get http (lit "sourceIp") PNone ;;
   route <- py_get event (lit "rawPath") PNone ;;
   Ok (PDict [ (lit "message", PStr (lit "request_received"));
               (lit "requestId", request_id);
               (lit "sourceIp", source_ip);
               (lit "route", route) ]))%result.

(** The body of the [try:]. *)
Definition try_block (env : Env) (event : pyval) : io response :=
  (body <- lift (_parse_body env event) ;;
   '(text, voice_id, fmt, use_ssml) <- lift (_read_inputs env body) ;;
   audio <- _synthesize env text voice_id fmt use_ssml ;;
   '(key, content_type, url) <- _store_audio env fmt audio ;;
   ret (_json_response env 200
          (PDict [ (lit "audioUrl", PStr url);
                   (lit "bucket", PStr (AUDIO_BUCKET env));
                   (lit "key", PStr key);
                   (lit "voiceId", PStr voice_id);
                   (lit "format", PStr fmt);
                   (lit "contentType", PStr content_type);
                   (lit "ssml", PBool use_ssml) ])))%io.

(** The [except] clauses, in their order. An exception outside
    [Exception] passes through. *)
Definition except_clauses (env : Env) (e : pyexc) : result response :=
  if is_ValueError e then
    Ok (_json_response env 400 (PDict [ (lit "error", PStr (exc_str e)) ]))
  else if is_aws_error e then
    Ok (_json_response env 500
          (PDict [ (lit "error", PStr (lit "AWS error"));
                   (lit "detail", PStr (exc_str e)) ]))
  else if is_Exception e then
    Ok (_json_response env 500
          (PDict [ (lit "error", PStr (lit "Unexpected error"));
                   (lit "detail", PStr (exc_str e)) ]))
  else Raise e.

Definition lambda_handler (env : Env) (event : pyval) (context : LambdaContext)
  : io response :=
  (line <- lift (request_received context event) ;;
   _ <- perform (Print (json_dumps env line)) (Ok tt) ;;
   match try_block env event with
   | (t, Ok r) => (t, Ok r)
   | (t, Raise e) => (t, except_clauses env e)
   end)%io.

End App.

(** ** A reference runtime for concrete runs

    The properties below hold for every environment. To run the handler
    on a concrete event the runtime fields are filled with the functions
    of this module: [base64.b64decode] as [binascii.a2b_base64] computes
    it in its default, non-strict mode, and a JSON decoder for the
    documents the runs use: objects, arrays, strings with two-character
    escapes, integers, [true], [false] and [null]. On a document outside
    that fragment (a fraction or an exponent, [NaN], [Infinity], a [\u]
    escape, bytes that are not ASCII) this decoder reports failure, which
    the runtime's does not. *)

Module Runtime.
Import Py World.

(** *** base64 *)

Definition b64_value (c : N) : option N :=
  (if (65 <=? c) && (c <=? 90) then Some (c - 65)
   else if (97 <=? c) && (c <=? 122) then Some (c - 71)
   else if (48 <=? c) && (c <=? 57) then Some (c + 4)
   else if c =? 43 then Some 62
   else if c =? 47 then Some 63
   else None)%N.

Definition to_byte (n : N) : byte :=
  match Byte.of_N n with Some b => b | None => x00 end.

(** The decoding loop of [a2b_base64]: [quad_pos] is the position inside
    the current group of four, [leftchar] the bits not yet written,
    [pads] the padding characters seen since the last data character,
    [out] the bytes written so far, last first. *)
Fixpoint a2b_base64 (input : pystr) (quad_pos : nat) (leftchar : N) (pads : nat)
    (out : list N) : result pybytes :=
  match input with
  | [] =>
      match quad_pos with
      | O => Ok (map to_byte (rev out))
      | 1%nat =>
          Raise (mkExc BinasciiError
            (lit "Invalid base64-encoded string: number of data characters ("
             ++ str_of_int (Z.of_nat (List.length out) / 3 * 4 + 1)
             ++ lit ") cannot be 1 more than a multiple of 4"))
      | _ => Raise (mkExc BinasciiError (lit "Incorrect padding"))
      end
  | c :: rest =>
      if (c =? 61)%N then
        if (2 <=? quad_pos)%nat then
          if (4 <=? quad_pos + S pads)%nat then Ok (map to_byte (rev out))
          else a2b_base64 rest quad_pos leftchar (S pads) out
        else a2b_base64 rest quad_pos leftchar pads out
      else
        match b64_value c with
        | None => a2b_base64 rest quad_pos leftchar pads out
        | Some v =>
            match quad_pos with
            | O => a2b_base64 rest 1 v 0 out
            | 1%nat =>
                a2b_base64 rest 2 (N.land v 15) 0
                  (N.lor (N.shiftl leftchar 2) (N.shiftr v 4) :: out)
            | 2%nat =>
                a2b_base64 rest 3 (N.land v 3) 0
                  (N.lor (N.shiftl leftchar 4) (N.shiftr v 2) :: out)
            | _ =>
                a2b_base64 rest 0 0 0 (N.lor (N.shiftl leftchar 6) v :: out)
            end
        end
  end.

Definition b64decode (s : pyval) : result pybytes :=
  match s with
  | PStr t =>
      if forallb (fun c => (c <? 128)%N) t then a2b_base64 t 0 0 0 []
      else Raise (mkExc ValueError
             (lit "string argument should contain only ASCII characters"))
  | _ =>
      Raise (mkExc TypeError
        (lit "argument should be a bytes-like object or ASCII string, not '"
         ++ type_name s ++ lit "'"))
  end.

(** *** JSON decoding *)

Definition is_json_ws (c : N) : bool :=
  ((c =? 32) || (c =? 9) || (c =? 10) || (c =? 13))%N.

Fixpoint skip_ws (s : pystr) : pystr :=
  match s with
  | c :: s' => if is_json_ws c then skip_ws s' else s
  | [] => []
  end.

(** After the opening quote: the string and what follows the closing
    quote. *)
Fixpoint scan_string (s acc : pystr) : option (pystr * pystr) :=
  match s with
  | [] => None
  | c :: s' =>
      if (c =? 34)%N then Some (rev acc, s')
      else if (c =? 92)%N then
        match s' with
        | e :: s'' =>
            let esc (x : N) := scan_string s'' (x :: acc) in
            (if e =? 34 then esc 34 else if e =? 92 then esc 92
             else if e =? 47 then esc 47 else if e =? 98 then esc 8
             else if e =? 102 then esc 12 else if e =? 110 then esc 10
             else if e =? 114 then esc 13 else if e =? 116 then esc 9
             else None)%N
        | [] => None
        end
      else if (c <? 32)%N then None
      else scan_string s' (c :: acc)
  end.

Definition is_digit (c : N) : bool := ((48 <=? c) && (c <=? 57))%N.

Fixpoint scan_digits (s : pystr) (acc : Z) : Z * pystr :=
  match s with
  | c :: s' => if is_digit c then scan_digits s' (10 * acc + Z.of_N (c - 48)) else (acc, s)
  | [] => (acc, [])
  end.

(** An integer literal; [None] also when a fraction or exponent follows. *)
Definition scan_int (s : pystr) : option (Z * pystr) :=
  let '(neg, s1) :=
    match s with
    | c :: s' => if (c =? 45)%N then (true, s') else (false, s)
    | [] => (false, s)
    end in
  match s1 with
  | c :: s2 =>
      if is_digit c then
        let '(z, rest) := if (c =? 48)%N then (0, s2) else scan_digits s1 0 in
        match rest with
        | d :: _ =>
            if ((d =? 46) || (d =? 101) || (d =? 69))%N then None
            else Some (if neg then - z else z, rest)
        | [] => Some (if neg then - z else z, rest)
        end
      else None
  | [] => None
  end.

(** [d[k] = v] *)
Fixpoint dict_set (d : list (pystr * pyval)) (k : pystr) (v : pyval)
  : list (pystr * pyval) :=
  match d with
  | [] => [(k, v)]
  | (k', v') :: d' =>
      if str_eqb k' k then (k', v) :: d' else (k', v') :: dict_set d' k v
  end.

Fixpoint starts_with (p s : pystr) : option pystr :=
  match p, s with
  | [], _ => Some s
  | x :: p', y :: s' => if (x =? y)%N then starts_with p' s' else None
  | _ :: _, [] => None
  end.

Fixpoint scan_value (fuel : nat) (s : pystr) : option (pyval * pystr) :=
  match fuel with
  | O => None
  | S fuel' =>
      match s with
      | [] => None
      | c :: s' =>
          if (c =? 34)%N then
            match scan_string s' [] with
            | Some (str, rest) => Some (PStr str, rest)
            | None => None
            end
          else if (c =? 123)%N then
            match skip_ws s' with
            | c' :: rest =>
                if (c' =? 125)%N then Some (PDict [], rest)
                else scan_members fuel' (skip_ws s') []
            | [] => None
            end
          else if (c =? 91)%N then
            match skip_ws s' with
            | c' :: rest =>
                if (c' =? 93)%N then Some (PList [], rest)
                else scan_elements fuel' (skip_ws s') []
            | [] => None
            end
          else
            match starts_with (lit "null") s, starts_with (lit "true") s,
                  starts_with (lit "false") s with
            | Some rest, _, _ => Some (PNone, rest)
            | _, Some rest, _ => Some (PBool true, rest)
            | _, _, Some rest => Some (PBool false, rest)
            | _, _, _ =>
                match scan_int s with
                | Some (z, rest) => Some (PInt z, rest)
                | None => None
                end
            end
      end
  end
with scan_members (fuel : nat) (s : pystr) (acc : list (pystr * pyval))
  : option (pyval * pystr) :=
  match fuel with
  | O => None
  | S fuel' =>
      match s with
      | c :: s' =>
          if (c =? 34)%N then
            match scan_string s' [] with
            | Some (k, rest) =>
                match skip_ws rest with
                | colon :: rest1 =>
                    if (colon =? 58)%N then
                      match scan_value fuel' (skip_ws rest1) with
                      | Some (v, rest2) =>
                          let acc' := dict_set acc k v in
                          match skip_ws rest2 with
                          | d :: rest3 =>
                              if (d =? 125)%N then Some (PDict acc', rest3)
                              else if (d =? 44)%N
                              then scan_members fuel' (skip_ws rest3) acc'
                              else None
                          | [] => None
                          end
                      | None => None
                      end
                    else None
                | [] => None
                end
            | None => None
            end
          else None
      | [] => None
      end
  end
with scan_elements (fuel : nat) (s : pystr) (acc : list pyval)
  : option (pyval * pystr) :=
  match fuel with
  | O => None
  | S fuel' =>
      match scan_value fuel' s with
      | Some (v, rest) =>
          match skip_ws rest with
          | d :: rest1 =>
              if (d =? 93)%N then Some (PList (rev (v :: acc)), rest1)
              else if (d =? 44)%N
              then scan_elements fuel' (skip_ws rest1) (v :: acc)
              else None
          | [] => None
          end
      | None => None
      end
  end.

Definition decode_document (s : pystr) : option pyval :=
  match scan_value (2 * List.length s + 2) (skip_ws s) with
  | Some (v, rest) => match skip_ws rest with [] => Some v | _ => None end
  | None => None
  end.

Definition json_loads (src : json_source) : option pyval :=
  match src with
  | FromValue (PStr s) => decode_document s
  | FromValue _ => None
  | FromBytes b =>
      let cps := map Byte.to_N b in
      if forallb (fun c => (0 <? c)%N && (c <? 128)%N) cps
      then decode_document cps else None
  end.

End Runtime.

(** ** Concrete environments *)

Module Demo.
Import Py World App.

(** A synthesis client that answers with three bytes of audio, and one
    whose answer has no ["AudioStream"]. *)
Definition speaking_polly (kwargs : list (pystr * pystr)) : result polly_response :=
  Ok {| AudioStream := Some (Ok [x49; x44; x33]) |}.

Definition silent_polly (kwargs : list (pystr * pystr)) : result polly_response :=
  Ok {| AudioStream := None |}.

(** A deployment with the reference runtime and a storage client that
    accepts every write. The three table-driven runtime fields are never
    consulted in the runs below: the events are ASCII, hold no float and
    every format looked up is a supported one. *)
Definition deployment (max_chars : Z)
    (polly : list (pystr * pystr) -> result polly_response) : Env := {|
  MAX_CHARS := max_chars;
  URL_EXPIRY_SECONDS := 3600;
  AUDIO_BUCKET := lit "azubi-audio";
  ALLOWED_ORIGIN := lit "*";
  json_loads := Runtime.json_loads;
  b64decode := Runtime.b64decode;
  unicode_lower := fun _ c _ => [c];
  str_repr := fun s => lit "'" ++ s ++ lit "'";
  float_repr := fun _ => lit "NaN";
  urandom := 0x0123456789abcdef0123456789abcdef;
  polly_synthesize_speech := polly;
  s3_put_object := fun _ _ _ _ => Ok tt;
  s3_generate_presigned_url :=
    fun _ bucket key expires =>
      Ok (lit "https://" ++ bucket ++ lit ".s3.amazonaws.com/" ++ key
          ++ lit "?X-Amz-Expires=" ++ str_of_int expires)
|}.

(** The default limit; a limit of ten characters; a synthesis client
    without audio. *)
Definition env : Env := deployment 3000 speaking_polly.

Definition env_short : Env := deployment 10 speaking_polly.

Definition env_no_stream : Env := deployment 3000 silent_polly.

Definition context : LambdaContext :=
  {| aws_request_id := Some (PStr (lit "c6af9ac6-7b61-11e6-9a41-93e8deadbeef")) |}.

Definition request_context : pyval :=
  PDict [ (lit "http", PDict [ (lit "sourceIp", PStr (lit "203.0.113.7")) ]) ].

(** An HTTP API event carrying [body_text] as its body. *)
Definition http_event (body_text : pystr) : pyval :=
  PDict [ (lit "rawPath", PStr (lit "/synthesize"));
          (lit "requestContext", request_context);
          (lit "body", PStr body_text);
          (lit "isBase64Encoded", PBool false) ].

(** The fields of an event without a body: not flagged, and flagged as
    base64. *)
Definition bodyless_fields (flag : bool) : list (pystr * pyval) :=
  [ (lit "rawPath", PStr (lit "/synthesize"));
    (lit "requestContext", request_context);
    (lit "body", PNone);
    (lit "isBase64Encoded", PBool flag) ].

(** The dict of the log line for these events. *)
Definition log_line : pyval :=
  PDict [ (lit "message", PStr (lit "request_received"));
          (lit "requestId", PStr (lit "c6af9ac6-7b61-11e6-9a41-93e8deadbeef"));
          (lit "sourceIp", PStr (lit "203.0.113.7"));
          (lit "route", PStr (lit "/synthesize")) ].

(** The first end-to-end example of the specification, and what the
    handler does on it. *)
Definition hello_event : pyval :=
  http_event (json_lit "{`text`: `Hello world`, `format`: `mp3`}").

Definition hello_key : pystr :=
  lit "audio/01234567-89ab-4def-8123-456789abcdef.mp3".

Definition hello_url : pystr :=
  lit "https://azubi-audio.s3.amazonaws.com/audio/01234567-89ab-4def-8123-456789abcdef.mp3?X-Amz-Expires=3600".

Definition hello_trace : list call :=
  [ SynthesizeSpeech [ (lit "VoiceId", lit "Joanna"); (lit "OutputFormat", lit "mp3");
                       (lit "Text", lit "Hello world") ];
    PutObject (lit "azubi-audio") hello_key [x49; x44; x33] (lit "audio/mpeg");
    GeneratePresignedUrl (lit "get_object") (lit "azubi-audio") hello_key 3600 ].

Definition hello_response : response :=
  _json_response env 200
    (PDict [ (lit "audioUrl", PStr hello_url);
             (lit "bucket", PStr (lit "azubi-audio"));
             (lit "key", PStr hello_key);
             (lit "voiceId", PStr (lit "Joanna"));
             (lit "format", PStr (lit "mp3"));
             (lit "contentType", PStr (lit "audio/mpeg"));
             (lit "ssml", PBool false) ]).

End Demo.

(** ** Environments whose clients fail *)

Module Faults.
Import Py World App.

(** [e] with another synthesis client. *)
Definition with_polly (e : Env)
    (polly : list (pystr * pystr) -> result polly_response) : Env := {|
  MAX_CHARS := MAX_CHARS e;
  URL_EXPIRY_SECONDS := URL_EXPIRY_SECONDS e;
  AUDIO_BUCKET := AUDIO_BUCKET e;
  ALLOWED_ORIGIN := ALLOWED_ORIGIN e;
  json_loads := json_loads e;
  b64decode := b64decode e;
  unicode_lower := unicode_lower e;
  str_repr := str_repr e;
  float_repr := float_repr e;
  urandom := urandom e;
  polly_synthesize_speech := polly;
  s3_put_object := s3_put_object e;
  s3_generate_presigned_url := s3_generate_presigned_url e
|}.

(** [e] with another storage client. *)
Definition with_storage (e : Env)
    (put : pystr -> pystr -> pybytes -> pystr -> result unit)
    (sign : pystr -> pystr -> pystr -> Z -> result pystr) : Env := {|
  MAX_CHARS := MAX_CHARS e;
  URL_EXPIRY_SECONDS := URL_EXPIRY_SECONDS e;
  AUDIO_BUCKET := AUDIO_BUCKET e;
  ALLOWED_ORIGIN := ALLOWED_ORIGIN e;
  json_loads := json_loads e;
  b64decode := b64decode e;
  unicode_lower := unicode_lower e;
  str_repr := str_repr e;
  float_repr := float_repr e;
  urandom := urandom e;
  polly_synthesize_speech := polly_synthesize_speech e;
  s3_put_object := put;
  s3_generate_presigned_url := sign
|}.

Definition throttled : pyexc :=
  mkExc ClientError
    (lit "An error occurred (ThrottlingException) when calling the SynthesizeSpeech operation: Rate exceeded").

Definition access_denied : pyexc :=
  mkExc ClientError
    (lit "An error occurred (AccessDenied) when calling the PutObject operation: Access Denied").

Definition no_credentials : pyexc :=
  mkExc BotoCoreError (lit "Unable to locate credentials").

Definition broken_stream : pyexc :=
  mkExc ValueError (lit "I/O operation on closed file.").

Definition invalid_region : pyexc :=
  mkExc BotoCoreValueError
    (lit "Provided region_name 'eu west 1' doesn't match a supported format.").

(** The deployment of [Demo.env] with a synthesis client that is
    throttled, with one whose stream cannot be read, with a bucket that
    refuses the write, and with a storage client that cannot sign. *)
Definition env_polly_fails : Env :=
  with_polly Demo.env (fun _ => Raise throttled).

Definition env_region_fails : Env :=
  with_polly Demo.env (fun _ => Raise invalid_region).

Definition env_stream_fails : Env :=
  with_polly Demo.env (fun _ => Ok {| AudioStream := Some (Raise broken_stream) |}).

Definition env_put_fails : Env :=
  with_storage Demo.env (fun _ _ _ _ => Raise access_denied)
    (s3_generate_presigned_url Demo.env).

Definition env_sign_fails : Env :=
  with_storage Demo.env (s3_put_object Demo.env) (fun _ _ _ _ => Raise no_credentials).

(** An HTTP API event whose body is flagged as base64. *)
Definition flagged_event (body_text : pystr) : pyval :=
  PDict [ (lit "rawPath", PStr (lit "/synthesize"));
          (lit "requestContext", Demo.request_context);
          (lit "body", PStr body_text);
          (lit "isBase64Encoded", PBool true) ].

End Faults.

(** ** Vocabulary of the statements *)

Import Py World App.

(** [sub] occurs in [s]. *)
Definition contains (sub s : pystr) : Prop :=
  exists before after, s = before ++ sub ++ after.

(** The keyword arguments [_synthesize] passes to the synthesis client. *)
Definition synthesis_kwargs (voice_id output_format text : pystr) (use_ssml : bool)
  : list (pystr * pystr) :=
  [ (lit "VoiceId", voice_id); (lit "OutputFormat", output_format) ]
  ++ (if use_ssml then [ (lit "TextType", lit "ssml") ] else [])
  ++ [ (lit "Text", text) ].

(** The body of a 400 response. *)
Definition error_payload (message : pystr) : pyval :=
  PDict [ (lit "error", PStr message) ].

(** The request dict [d] passes the two checks on [text], which resolves
    to [text]. *)
Definition text_accepted (env : Env) (d : list (pystr * pyval)) (text : pystr) : Prop :=
  py_strip (py_or (get_or d (lit "text") PNone) (PStr (lit ""))) = Ok text
  /\ text <> []
  /\ len text <= MAX_CHARS env.

(** The extension [_store_audio] gives the key. *)
Definition extension (fmt : pystr) : pystr :=
  if str_eqb fmt (lit "mp3") then lit "mp3"
  else if str_eqb fmt (lit "ogg_vorbis") then lit "ogg" else lit "pcm".

(** The key [_store_audio] writes to in this invocation. *)
Definition object_key (env : Env) (fmt : pystr) : pystr :=
  lit "audio/" ++ str_of_uuid (uuid4 (urandom env)) ++ lit "." ++ extension fmt.

(** The body of a 500 response for a provider failure, and for any
    other failure. *)
Definition aws_payload (detail : pystr) : pyval :=
  PDict [ (lit "error", PStr (lit "AWS error")); (lit "detail", PStr detail) ].

Definition unexpected_payload (detail : pystr) : pyval :=
  PDict [ (lit "error", PStr (lit "Unexpected error")); (lit "detail", PStr detail) ].

(** The text of the three error bodies: the JSON object with the message,
    or with the label and the detail, as JSON strings. *)
Definition error_body (message : pystr) : pystr :=
  json_lit "{`error`: " ++ json_str message ++ json_lit "}".

Definition aws_body (detail : pystr) : pystr :=
  json_lit "{`error`: `AWS error`, `detail`: " ++ json_str detail ++ json_lit "}".

Definition unexpected_body (detail : pystr) : pystr :=
  json_lit "{`error`: `Unexpected error`, `detail`: " ++ json_str detail ++ json_lit "}".

(** The text of the body of a 200. *)
Definition success_body (url bucket key voice fmt ctype : pystr) (ssml : bool) : pystr :=
  json_lit "{`audioUrl`: " ++ json_str url
  ++ json_lit ", `bucket`: " ++ json_str bucket
  ++ json_lit ", `key`: " ++ json_str key
  ++ json_lit ", `voiceId`: " ++ json_str voice
  ++ json_lit ", `format`: " ++ json_str fmt
  ++ json_lit ", `contentType`: " ++ json_str ctype
  ++ json_lit ", `ssml`: " ++ (if ssml then lit "true" else lit "false")
  ++ json_lit "}".

(** The content type [_store_audio] tags the object with:
    [SUPPORTED_FORMATS[fmt][0]]. *)
Definition content_type_of (fmt : pystr) : pystr :=
  match dict_get SUPPORTED_FORMATS fmt with
  | Some entry => fst entry
  | None => []
  end.

(** A code point [json.dumps] writes as it is. *)
Definition plain (c : N) : bool :=
  ((32 <=? c) && (c <=? 126) && negb (c =? 34) && negb (c =? 92))%N.

(** A printable ASCII code point. *)
Definition printable (c : N) : bool := ((32 <=? c) && (c <=? 126))%N.

(** Whatever the runtime and the clients of [env] raise is an
    [Exception]. *)
Definition clients_raise_exceptions (env : Env) : Prop :=
  (forall v e, b64decode env v = Raise e -> is_Exception e = true)
  /\ (forall kwargs e,
        polly_synthesize_speech env kwargs = Raise e -> is_Exception e = true)
  /\ (forall kwargs resp e,
        polly_synthesize_speech env kwargs = Ok resp ->
        AudioStream resp = Some (Raise e) -> is_Exception e = true)
  /\ (forall bucket key data ctype e,
        s3_put_object env bucket key data ctype = Raise e -> is_Exception e = true)
  /\ (forall method bucket key expires e,
        s3_generate_presigned_url env method bucket key expires = Raise e ->
        is_Exception e = true).


(** ** Properties of the handler *)

(** *** Strings and the format table *)

Lemma str_eqb_eq (a b : pystr) : str_eqb a b = true <-> a = b.
Proof.
  revert b; induction a as [|x a IH]; intros [|y b]; simpl; split; try easy.
  - intros H. apply andb_true_iff in H as [Hx Hr].
    apply N.eqb_eq in Hx. apply IH in Hr. now subst.
  - intros H. injection H as -> ->. rewrite N.eqb_refl. now apply IH.
Qed.

Lemma str_eqb_refl (a : pystr) : str_eqb a a = true.
Proof. now apply str_eqb_eq. Qed.

Lemma supported_cases (fmt : pystr) (entry : pystr * pystr) :
  dict_get SUPPORTED_FORMATS fmt = Some entry ->
  (fmt = lit "mp3" /\ entry = (lit "audio/mpeg", lit "mp3")) \/
  (fmt = lit "ogg_vorbis" /\ entry = (lit "audio/ogg", lit "ogg_vorbis")) \/
  (fmt = lit "pcm" /\ entry = (lit "audio/wave", lit "pcm")).
Proof.
  unfold SUPPORTED_FORMATS. cbn [dict_get].
  destruct (str_eqb (lit "mp3") fmt) eqn:E1.
  { apply str_eqb_eq in E1. intros [= <-]. now left. }
  destruct (str_eqb (lit "ogg_vorbis") fmt) eqn:E2.
  { apply str_eqb_eq in E2. intros [= <-]. right. now left. }
  destruct (str_eqb (lit "pcm") fmt) eqn:E3.
  { apply str_eqb_eq in E3. intros [= <-]. right. now right. }
  discriminate.
Qed.

Lemma contains_middle (a sub b : pystr) : contains sub (a ++ sub ++ b).
Proof. now exists a, b. Qed.

(** *** The text of a body *)

Lemma error_body_text (env : Env) (code : Z) (message : pystr) :
  body (_json_response env code (error_payload message)) = error_body message.
Proof.
  unfold error_body, error_payload, _json_response, json_dumps.
  cbn [body json_dumps_with map join]. rewrite <- !app_assoc. reflexivity.
Qed.

Lemma aws_body_text (env : Env) (code : Z) (detail : pystr) :
  body (_json_response env code (aws_payload detail)) = aws_body detail.
Proof.
  unfold aws_body, aws_payload, _json_response, json_dumps.
  cbn [body json_dumps_with map join]. rewrite <- !app_assoc. reflexivity.
Qed.

Lemma unexpected_body_text (env : Env) (code : Z) (detail : pystr) :
  body (_json_response env code (unexpected_payload detail)) = unexpected_body detail.
Proof.
  unfold unexpected_body, unexpected_payload, _json_response, json_dumps.
  cbn [body json_dumps_with map join]. rewrite <- !app_assoc. reflexivity.
Qed.

Lemma success_body_text (env : Env) (code : Z)
    (url bucket key voice fmt ctype : pystr) (ssml : bool) :
  body (_json_response env code
          (PDict [ (lit "audioUrl", PStr url);
                   (lit "bucket", PStr bucket);
                   (lit "key", PStr key);
                   (lit "voiceId", PStr voice);
                   (lit "format", PStr fmt);
                   (lit "contentType", PStr ctype);
                   (lit "ssml", PBool ssml) ]))
  = success_body url bucket key voice fmt ctype ssml.
Proof.
  unfold success_body, _json_response, json_dumps.
  cbn [body json_dumps_with map join]. rewrite <- !app_assoc. reflexivity.
Qed.

Lemma json_escape_plain (c : N) : plain c = true -> json_escape c = [c].
Proof.
  unfold plain, json_escape. intros H.
  apply andb_true_iff in H as [H H92]. apply andb_true_iff in H as [H H34].
  apply negb_true_iff in H92, H34. rewrite H92, H34, H.
  apply andb_true_iff in H as [Hlo _]. apply N.leb_le in Hlo.
  repeat match goal with
         | |- context [(c =? ?k)%N] =>
             destruct (N.eqb_spec c k); [lia|]
         end.
  reflexivity.
Qed.

(** A string of plain code points is written between two quotes, as it
    is. *)
Lemma json_str_plain (s : pystr) :
  forallb plain s = true -> json_str s = [34%N] ++ s ++ [34%N].
Proof.
  intros H. unfold json_str. f_equal. f_equal.
  induction s as [|c s IH]; [reflexivity|].
  cbn [forallb] in H. apply andb_true_iff in H as [Hc Hs].
  cbn [flat_map]. now rewrite (json_escape_plain c Hc), (IH Hs).
Qed.

Lemma uint_plain (d : Decimal.uint) :
  forallb plain (lit (DecimalString.NilEmpty.string_of_uint d)) = true.
Proof. induction d; cbn [DecimalString.NilEmpty.string_of_uint]; try exact IHd; reflexivity || (cbn; exact IHd). Qed.

(** [str(z)] is made of digits and a sign. *)
Lemma str_of_int_plain (z : Z) : forallb plain (str_of_int z) = true.
Proof.
  unfold str_of_int. destruct (Z.to_int z) as [d|d];
    unfold DecimalString.NilZero.string_of_int, DecimalString.NilZero.string_of_uint.
  - destruct d; try reflexivity; apply (uint_plain (_ d)) || idtac.
    all: try (cbn; apply uint_plain).
  - destruct d; try reflexivity.
    all: try (cbn; apply uint_plain).
Qed.

(** *** The monad *)

Lemma bind_lift_ok {A B} (a : A) (k : A -> io B) : bind (lift (Ok a)) k = k a.
Proof. unfold bind, lift. now destruct (k a). Qed.

Lemma bind_lift_raise {A B} (e : pyexc) (k : A -> io B) :
  bind (lift (Raise e)) k = ([], Raise e).
Proof. reflexivity. Qed.

Lemma bind_ok_inv {A B} (m : io A) (k : A -> io B) (t : list call) (b : B) :
  bind m k = (t, Ok b) ->
  exists t1 a t2, m = (t1, Ok a) /\ k a = (t2, Ok b) /\ t = t1 ++ t2.
Proof.
  destruct m as [t1 [a|e]]; cbn [bind]; [|discriminate].
  destruct (k a) as [t2 r] eqn:Hk. intros [= <- ->].
  now exists t1, a, t2.
Qed.

(** *** The handler, stage by stage *)

Section Stages.
Context (env : Env) (event : pyval) (context : LambdaContext).

(** Once the log line is out, the handler answers for the [try] body. *)
Lemma lambda_handler_logged (line : pyval) :
  request_received context event = Ok line ->
  lambda_handler env event context =
    (Print (json_dumps env line) :: fst (try_block env event),
     match snd (try_block env event) with
     | Ok r => Ok r
     | Raise e => except_clauses env e
     end).
Proof.
  intros H. unfold lambda_handler. rewrite H, bind_lift_ok.
  unfold perform. cbn [bind].
  now destruct (try_block env event) as [t [r|e]].
Qed.

Lemma try_block_parse_error (e : pyexc) :
  _parse_body env event = Raise e -> try_block env event = ([], Raise e).
Proof. intros H. unfold try_block. now rewrite H. Qed.

Lemma try_block_read_error (body : pyval) (e : pyexc) :
  _parse_body env event = Ok body ->
  _read_inputs env body = Raise e ->
  try_block env event = ([], Raise e).
Proof. intros Hp Hr. unfold try_block. now rewrite Hp, bind_lift_ok, Hr. Qed.

(** A validation failure: nothing is called, the answer is a 400 with
    the message of the [ValueError]. *)
Lemma validation_failure (line body : pyval) (message : pystr) :
  request_received context event = Ok line ->
  _parse_body env event = Ok body ->
  _read_inputs env body = Raise (mkExc ValueError message) ->
  lambda_handler env event context =
    ([Print (json_dumps env line)],
     Ok (_json_response env 400 (error_payload message))).
Proof.
  intros Hl Hp Hr. rewrite (lambda_handler_logged line Hl).
  now rewrite (try_block_read_error body _ Hp Hr).
Qed.

End Stages.

(** *** Validation *)

Section ReadInputs.
Context (env : Env) (d : list (pystr * pyval)).

(** An absent or blank [text] resolves to the empty string. *)
Lemma blank_text_strips_to_empty :
  (dict_get d (lit "text") = None
   \/ (exists v, dict_get d (lit "text") = Some v /\ truthy v = false)
   \/ (exists s, dict_get d (lit "text") = Some (PStr s) /\ strip s = [])) ->
  py_strip (py_or (get_or d (lit "text") PNone) (PStr (lit ""))) = Ok [].
Proof.
  unfold get_or. intros [-> | [(v & -> & Hv) | (s & -> & Hs)]]; [reflexivity| |].
  - unfold py_or. now rewrite Hv.
  - destruct s as [|c s]; [reflexivity|].
    unfold py_or. cbn [truthy py_strip]. now rewrite Hs.
Qed.

Lemma read_inputs_blank :
  py_strip (py_or (get_or d (lit "text") PNone) (PStr (lit ""))) = Ok [] ->
  _read_inputs env (PDict d)
  = Raise (mkExc ValueError (lit "Field 'text' is required")).
Proof. intros H. unfold _read_inputs. cbn [py_get rbind]. now rewrite H. Qed.

Lemma read_inputs_too_long (text : pystr) :
  py_strip (py_or (get_or d (lit "text") PNone) (PStr (lit ""))) = Ok text ->
  text <> [] ->
  len text > MAX_CHARS env ->
  _read_inputs env (PDict d)
  = Raise (mkExc ValueError
      (lit "Text too long (" ++ str_of_int (len text) ++ lit " chars). Limit is "
       ++ str_of_int (MAX_CHARS env) ++ lit ".")).
Proof.
  intros H Hne Hlen. unfold _read_inputs. cbn [py_get rbind]. rewrite H.
  destruct text as [|c text]; [congruence|]. cbn [rbind truthy negb].
  destruct (Z.gtb_spec (len (c :: text)) (MAX_CHARS env)); [reflexivity|lia].
Qed.

End ReadInputs.

(** C5. A request whose [text] is absent, falsy (the empty string, [null])
    or a string of whitespace gets the 400 response with body
    [{"error": "Field 'text' is required"}], whatever its other fields
    hold, and the handler calls neither the synthesis nor the storage
    client: the log line is all it emits. *)
Theorem blank_text_is_rejected
    (env : Env) (event : pyval) (context : LambdaContext)
    (line : pyval) (d : list (pystr * pyval)) :
  request_received context event = Ok line ->
  _parse_body env event = Ok (PDict d) ->
  (dict_get d (lit "text") = None
   \/ (exists v, dict_get d (lit "text") = Some v /\ truthy v = false)
   \/ (exists s, dict_get d (lit "text") = Some (PStr s) /\ strip s = [])) ->
  lambda_handler env event context
  = ([Print (json_dumps env line)],
     Ok (_json_response env 400 (error_payload (lit "Field 'text' is required"))))
  /\ statusCode (_json_response env 400 (error_payload (lit "Field 'text' is required"))) = 400
  /\ body (_json_response env 400 (error_payload (lit "Field 'text' is required")))
     = json_lit "{`error`: `Field 'text' is required`}".
Proof.
  intros Hl Hp Hblank. split; [|split; reflexivity].
  apply (validation_failure env event context line (PDict d) _ Hl Hp).
  apply read_inputs_blank. now apply blank_text_strips_to_empty.
Qed.

(** C6. With a non-negative limit, a request whose trimmed text is longer
    than [MAX_CHARS] gets a 400 whose message, and so whose body, holds
    both the length of the trimmed text and the limit. *)
Theorem long_text_is_rejected
    (env : Env) (event : pyval) (context : LambdaContext)
    (line : pyval) (d : list (pystr * pyval)) (s : pystr) :
  0 <= MAX_CHARS env ->
  request_received context event = Ok line ->
  _parse_body env event = Ok (PDict d) ->
  dict_get d (lit "text") = Some (PStr s) ->
  len (strip s) > MAX_CHARS env ->
  exists message r,
    lambda_handler env event context = ([Print (json_dumps env line)], Ok r)
    /\ r = _json_response env 400 (error_payload message)
    /\ statusCode r = 400
    /\ message = lit "Text too long (" ++ str_of_int (len (strip s))
                 ++ lit " chars). Limit is " ++ str_of_int (MAX_CHARS env) ++ lit "."
    /\ body r
       = json_lit "{`error`: `Text too long (" ++ str_of_int (len (strip s))
         ++ lit " chars). Limit is " ++ str_of_int (MAX_CHARS env) ++ json_lit ".`}"
    /\ contains (str_of_int (len (strip s))) message
    /\ contains (str_of_int (MAX_CHARS env)) message.
Proof.
  intros Hmax Hl Hp Ht Hlen.
  assert (Hne : strip s <> []).
  { intros E. rewrite E in Hlen. cbn in Hlen. lia. }
  assert (Hs : s <> []) by (intros ->; now apply Hne).
  do 2 eexists. split; [|split; [reflexivity|split; [reflexivity|split; [reflexivity|split; [|split]]]]].
  - apply (validation_failure env event context line (PDict d) _ Hl Hp).
    apply read_inputs_too_long; [|exact Hne|exact Hlen].
    unfold get_or. rewrite Ht. destruct s; [congruence|reflexivity].
  - rewrite error_body_text. unfold error_body.
    rewrite json_str_plain.
    + rewrite <- !app_assoc. reflexivity.
    + rewrite !forallb_app, !str_of_int_plain. reflexivity.
  - apply contains_middle.
  - exists (lit "Text too long (" ++ str_of_int (len (strip s)) ++ lit " chars). Limit is "),
      (lit "."). now rewrite <- !app_assoc.
Qed.

(** *** Responses *)

Lemma try_block_response (env : Env) (event : pyval) (t : list call) (r : response) :
  try_block env event = (t, Ok r) ->
  exists payload, r = _json_response env 200 payload.
Proof.
  unfold try_block. intros H.
  apply bind_ok_inv in H as (t1 & body & t2 & _ & H & _).
  apply bind_ok_inv in H as (t3 & [[[text voice] fmt] ssml] & t4 & _ & H & _).
  apply bind_ok_inv in H as (t5 & audio & t6 & _ & H & _).
  apply bind_ok_inv in H as (t7 & [[key ctype] url] & t8 & _ & H & _).
  injection H as _ <-. now eexists.
Qed.

Lemma except_clauses_response (env : Env) (e : pyexc) (r : response) :
  except_clauses env e = Ok r ->
  exists code payload, r = _json_response env code payload.
Proof.
  unfold except_clauses.
  destruct (is_ValueError e); [intros [= <-]; now do 2 eexists|].
  destruct (is_aws_error e); [intros [= <-]; now do 2 eexists|].
  destruct (is_Exception e); [intros [= <-]; now do 2 eexists|discriminate].
Qed.

(** C7. Every response the handler returns, whatever its status, has the
    same four headers: the JSON content type, the configured allowed
    origin, and the allowed headers and methods. *)
Theorem every_response_carries_the_cors_headers
    (env : Env) (event : pyval) (context : LambdaContext)
    (t : list call) (r : response) :
  lambda_handler env event context = (t, Ok r) ->
  headers r
  = [ (lit "Content-Type", lit "application/json");
      (lit "Access-Control-Allow-Origin", ALLOWED_ORIGIN env);
      (lit "Access-Control-Allow-Headers", lit "*");
      (lit "Access-Control-Allow-Methods", lit "OPTIONS,POST") ].
Proof.
  destruct (request_received context event) as [line|e] eqn:Hl.
  - rewrite (lambda_handler_logged env event context line Hl).
    destruct (try_block env event) as [t' [r'|e]] eqn:Ht; cbn [fst snd].
    + intros [= _ <-]. now destruct (try_block_response _ _ _ _ Ht) as [p ->].
    + intros [= _ He].
      now destruct (except_clauses_response _ _ _ He) as (c & p & ->).
  - unfold lambda_handler. rewrite Hl. discriminate.
Qed.

(** *** Accepted requests *)

(** What [_read_inputs] does after the checks on [text]. *)
Lemma read_inputs_text_accepted
    (env : Env) (d : list (pystr * pyval)) (text : pystr) :
  text_accepted env d text ->
  _read_inputs env (PDict d)
  = (f <- py_strip (py_or (get_or d (lit "format") PNone) (PStr (lit "mp3"))) ;;
     let fmt := lower_with (unicode_lower env) f in
     match dict_get SUPPORTED_FORMATS fmt with
     | None =>
         Raise (mkExc ValueError (lit "'format' must be one of: mp3, ogg_vorbis, pcm"))
     | Some _ =>
         voice_id <- py_strip (py_or (get_or d (lit "voiceId") PNone) (PStr DEFAULT_VOICE)) ;;
         Ok (text, voice_id, fmt, truthy (get_or d (lit "useSsml") (PBool false)))
     end)%result.
Proof.
  intros (Ht & Hne & Hlen). unfold _read_inputs. cbn [py_get rbind]. rewrite Ht.
  destruct text as [|c text]; [congruence|]. cbn [rbind truthy negb].
  destruct (Z.gtb_spec (len (c :: text)) (MAX_CHARS env)); [lia|].
  destruct (py_strip (py_or (get_or d (lit "format") PNone) (PStr (lit "mp3"))))
    as [f|e]; [|reflexivity].
  cbn [rbind].
  now destruct (dict_get SUPPORTED_FORMATS (lower_with (unicode_lower env) f)).
Qed.

(** What an accepted request looks like. *)
Lemma read_inputs_ok_inv
    (env : Env) (body : pyval) (text voice fmt : pystr) (ssml : bool) :
  _read_inputs env body = Ok (text, voice, fmt, ssml) ->
  exists d f entry,
    body = PDict d
    /\ text_accepted env d text
    /\ py_strip (py_or (get_or d (lit "format") PNone) (PStr (lit "mp3"))) = Ok f
    /\ fmt = lower_with (unicode_lower env) f
    /\ dict_get SUPPORTED_FORMATS fmt = Some entry
    /\ py_strip (py_or (get_or d (lit "voiceId") PNone) (PStr DEFAULT_VOICE)) = Ok voice
    /\ ssml = truthy (get_or d (lit "useSsml") (PBool false)).
Proof.
  destruct body as [| | | | | |d]; try discriminate.
  unfold _read_inputs. cbn [py_get rbind].
  destruct (py_strip (py_or (get_or d (lit "text") PNone) (PStr (lit ""))))
    as [text'|] eqn:Ht; [|discriminate].
  cbn [rbind]. destruct text' as [|c text']; [discriminate|]. cbn [truthy negb].
  destruct (Z.gtb_spec (len (c :: text')) (MAX_CHARS env)); [discriminate|].
  destruct (py_strip (py_or (get_or d (lit "format") PNone) (PStr (lit "mp3"))))
    as [f|] eqn:Hf; [|discriminate].
  cbn [rbind].
  destruct (dict_get SUPPORTED_FORMATS (lower_with (unicode_lower env) f))
    as [entry|] eqn:Hs; [|discriminate].
  cbn [negb].
  destruct (py_strip (py_or (get_or d (lit "voiceId") PNone) (PStr DEFAULT_VOICE)))
    as [voice'|] eqn:Hv; [|discriminate].
  cbn [rbind]. intros [= <- <- <- <-].
  exists d, f, entry. unfold text_accepted.
  repeat split; try assumption; try reflexivity; try discriminate; lia.
Qed.

(** *** Synthesis and storage *)

Section Capabilities.
Context (env : Env).

Lemma synthesize_run (text voice fmt : pystr) (ssml : bool) (entry : pystr * pystr) :
  dict_get SUPPORTED_FORMATS fmt = Some entry ->
  _synthesize env text voice fmt ssml
  = ([SynthesizeSpeech (synthesis_kwargs voice (snd entry) text ssml)],
     match polly_synthesize_speech env (synthesis_kwargs voice (snd entry) text ssml) with
     | Ok resp =>
         match AudioStream resp with
         | None => Raise (mkExc RuntimeError (lit "Polly returned no audio stream"))
         | Some stream => stream
         end
     | Raise e => Raise e
     end).
Proof.
  intros H. unfold _synthesize, supported_format. rewrite H, bind_lift_ok.
  replace (if ssml
           then [ (lit "VoiceId", voice); (lit "OutputFormat", snd entry) ]
                ++ [ (lit "TextType", lit "ssml"); (lit "Text", text) ]
           else [ (lit "VoiceId", voice); (lit "OutputFormat", snd entry) ]
                ++ [ (lit "Text", text) ])
    with (synthesis_kwargs voice (snd entry) text ssml)
    by now destruct ssml.
  unfold perform. cbn [bind].
  destruct (polly_synthesize_speech env _) as [resp|e]; [|reflexivity].
  now destruct (AudioStream resp).
Qed.

Lemma store_audio_run (fmt : pystr) (data : pybytes) (entry : pystr * pystr) :
  dict_get SUPPORTED_FORMATS fmt = Some entry ->
  _store_audio env fmt data
  = (PutObject (AUDIO_BUCKET env) (object_key env fmt) data (fst entry)
     :: match s3_put_object env (AUDIO_BUCKET env) (object_key env fmt) data (fst entry) with
        | Ok _ => [GeneratePresignedUrl (lit "get_object") (AUDIO_BUCKET env)
                     (object_key env fmt) (URL_EXPIRY_SECONDS env)]
        | Raise _ => []
        end,
     match s3_put_object env (AUDIO_BUCKET env) (object_key env fmt) data (fst entry) with
     | Ok _ =>
         match s3_generate_presigned_url env (lit "get_object") (AUDIO_BUCKET env)
                 (object_key env fmt) (URL_EXPIRY_SECONDS env) with
         | Ok url => Ok (object_key env fmt, fst entry, url)
         | Raise e => Raise e
         end
     | Raise e => Raise e
     end).
Proof.
  intros H. unfold _store_audio, supported_format. rewrite H, bind_lift_ok.
  fold (extension fmt). fold (object_key env fmt).
  unfold perform, ret. cbn [bind].
  destruct (s3_put_object env _ _ _ _) as [u|e]; [|reflexivity].
  now destruct (s3_generate_presigned_url env _ _ _ _).
Qed.

End Capabilities.

Lemma try_block_accepted
    (env : Env) (event body : pyval) (text voice fmt : pystr) (ssml : bool) :
  _parse_body env event = Ok body ->
  _read_inputs env body = Ok (text, voice, fmt, ssml) ->
  try_block env event
  = (audio <- _synthesize env text voice fmt ssml ;;
     '(key, content_type, url) <- _store_audio env fmt audio ;;
     ret (_json_response env 200
            (PDict [ (lit "audioUrl", PStr url);
                     (lit "bucket", PStr (AUDIO_BUCKET env));
                     (lit "key", PStr key);
                     (lit "voiceId", PStr voice);
                     (lit "format", PStr fmt);
                     (lit "contentType", PStr content_type);
                     (lit "ssml", PBool ssml) ])))%io.
Proof.
  intros Hp Hr. unfold try_block. now rewrite Hp, bind_lift_ok, Hr, bind_lift_ok.
Qed.

Lemma output_format_is_the_token (fmt : pystr) (entry : pystr * pystr) :
  dict_get SUPPORTED_FORMATS fmt = Some entry -> snd entry = fmt.
Proof.
  intros H.
  now destruct (supported_cases fmt entry H) as [[-> ->]|[[-> ->]|[-> ->]]].
Qed.

(** The handler on an accepted request: the log line, the synthesis
    call, and then what synthesis and storage make of it. *)
Lemma lambda_handler_accepted
    (env : Env) (event : pyval) (context : LambdaContext) (line body : pyval)
    (text voice fmt : pystr) (ssml : bool) :
  request_received context event = Ok line ->
  _parse_body env event = Ok body ->
  _read_inputs env body = Ok (text, voice, fmt, ssml) ->
  exists rest,
    fst (lambda_handler env event context)
    = Print (json_dumps env line)
      :: SynthesizeSpeech (synthesis_kwargs voice fmt text ssml) :: rest.
Proof.
  intros Hl Hp Hr. rewrite (lambda_handler_logged env event context line Hl).
  rewrite (try_block_accepted env event body text voice fmt ssml Hp Hr).
  destruct (read_inputs_ok_inv _ _ _ _ _ _ Hr) as (d & f & entry & _ & _ & _ & _ & He & _).
  rewrite (synthesize_run env text voice fmt ssml entry He).
  rewrite (output_format_is_the_token fmt entry He).
  cbn [bind fst].
  destruct (polly_synthesize_speech env _) as [resp|e]; [|now eexists].
  destruct (AudioStream resp) as [[audio|e]|]; try now eexists.
  destruct (bind (_store_audio env fmt audio) _) as [t' r']. now eexists.
Qed.

(** When every client does its part, the [try] body runs to its end. *)
Lemma try_block_succeeds
    (env : Env) (event request : pyval) (text voice fmt : pystr) (ssml : bool)
    (audio : pybytes) :
  _parse_body env event = Ok request ->
  _read_inputs env request = Ok (text, voice, fmt, ssml) ->
  polly_synthesize_speech env (synthesis_kwargs voice fmt text ssml)
  = Ok {| AudioStream := Some (Ok audio) |} ->
  (forall bucket key data ctype, s3_put_object env bucket key data ctype = Ok tt) ->
  (forall method bucket key expires,
     exists url, s3_generate_presigned_url env method bucket key expires = Ok url) ->
  exists t r, try_block env event = (t, Ok r).
Proof.
  intros Hp Hr Hpolly Hput Hsign.
  rewrite (try_block_accepted env event request text voice fmt ssml Hp Hr).
  destruct (read_inputs_ok_inv _ _ _ _ _ _ Hr) as (d & f & entry & _ & _ & _ & _ & He & _).
  rewrite (synthesize_run env text voice fmt ssml entry He).
  rewrite (output_format_is_the_token fmt entry He), Hpolly.
  cbn [bind AudioStream]. rewrite (store_audio_run env fmt audio entry He), Hput.
  destruct (Hsign (lit "get_object") (AUDIO_BUCKET env) (object_key env fmt)
              (URL_EXPIRY_SECONDS env)) as [url ->].
  cbn [bind ret app]. now do 2 eexists.
Qed.

(** C1, as the code has it. When an accepted request reaches a synthesis
    client whose answer has no audio stream, the handler returns a 500
    whose body is labelled ["Unexpected error"] (not ["AWS error"]) with
    the detail ["Polly returned no audio stream"]; it is never a 200 and
    nothing is stored. *)
Theorem missing_audio_stream_is_an_unexpected_error
    (env : Env) (event : pyval) (context : LambdaContext) (line request : pyval)
    (text voice fmt : pystr) (ssml : bool) :
  request_received context event = Ok line ->
  _parse_body env event = Ok request ->
  _read_inputs env request = Ok (text, voice, fmt, ssml) ->
  polly_synthesize_speech env (synthesis_kwargs voice fmt text ssml)
  = Ok {| AudioStream := None |} ->
  exists r,
    lambda_handler env event context
    = ([ Print (json_dumps env line);
         SynthesizeSpeech (synthesis_kwargs voice fmt text ssml) ],
       Ok r)
    /\ r = _json_response env 500
             (PDict [ (lit "error", PStr (lit "Unexpected error"));
                      (lit "detail", PStr (lit "Polly returned no audio stream")) ])
    /\ statusCode r = 500
    /\ body r
       = json_lit "{`error`: `Unexpected error`, `detail`: `Polly returned no audio stream`}".
Proof.
  intros Hl Hp Hr Hpolly. eexists. split; [|split; [reflexivity|split; reflexivity]].
  rewrite (lambda_handler_logged env event context line Hl).
  rewrite (try_block_accepted env event request text voice fmt ssml Hp Hr).
  destruct (read_inputs_ok_inv _ _ _ _ _ _ Hr) as (d & f & entry & _ & _ & _ & _ & He & _).
  rewrite (synthesize_run env text voice fmt ssml entry He).
  rewrite (output_format_is_the_token fmt entry He), Hpolly.
  reflexivity.
Qed.

(** C3. When the [try] body runs to its end, the handler returns a 200.
    The trace shows one write, under the key [audio/<uuid>.<ext>], and one
    signing request for that same key; the body is the JSON object with
    the signed URL, the bucket, that key, the voice, the format token that
    [_read_inputs] validated, the content type and the markup flag; and
    extension and content type are those of the format. *)
Theorem success_names_the_written_key
    (env : Env) (event : pyval) (context : LambdaContext) (line : pyval)
    (t : list call) (r : response) :
  request_received context event = Ok line ->
  try_block env event = (t, Ok r) ->
  exists request text voice fmt ext ctype audio url ssml,
    let key := lit "audio/" ++ str_of_uuid (uuid4 (urandom env)) ++ lit "." ++ ext in
    _parse_body env event = Ok request
    /\ _read_inputs env request = Ok (text, voice, fmt, ssml)
    /\ lambda_handler env event context = (Print (json_dumps env line) :: t, Ok r)
    /\ statusCode r = 200
    /\ ((fmt = lit "mp3" /\ ext = lit "mp3" /\ ctype = lit "audio/mpeg")
        \/ (fmt = lit "ogg_vorbis" /\ ext = lit "ogg" /\ ctype = lit "audio/ogg")
        \/ (fmt = lit "pcm" /\ ext = lit "pcm" /\ ctype = lit "audio/wave"))
    /\ t = [ SynthesizeSpeech (synthesis_kwargs voice fmt text ssml);
             PutObject (AUDIO_BUCKET env) key audio ctype;
             GeneratePresignedUrl (lit "get_object") (AUDIO_BUCKET env) key
               (URL_EXPIRY_SECONDS env) ]
    /\ s3_put_object env (AUDIO_BUCKET env) key audio ctype = Ok tt
    /\ s3_generate_presigned_url env (lit "get_object") (AUDIO_BUCKET env) key
         (URL_EXPIRY_SECONDS env) = Ok url
    /\ r = _json_response env 200
             (PDict [ (lit "audioUrl", PStr url);
                      (lit "bucket", PStr (AUDIO_BUCKET env));
                      (lit "key", PStr key);
                      (lit "voiceId", PStr voice);
                      (lit "format", PStr fmt);
                      (lit "contentType", PStr ctype);
                      (lit "ssml", PBool ssml) ])
    /\ body r
       = json_lit "{`audioUrl`: " ++ json_str url
         ++ json_lit ", `bucket`: " ++ json_str (AUDIO_BUCKET env)
         ++ json_lit ", `key`: " ++ json_str key
         ++ json_lit ", `voiceId`: " ++ json_str voice
         ++ json_lit ", `format`: " ++ json_str fmt
         ++ json_lit ", `contentType`: " ++ json_str ctype
         ++ json_lit ", `ssml`: " ++ (if ssml then lit "true" else lit "false")
         ++ json_lit "}".
Proof.
  intros Hl Ht.
  pose proof (lambda_handler_logged env event context line Hl) as Hh.
  rewrite Ht in Hh. cbn [fst snd] in Hh.
  destruct (_parse_body env event) as [request|e] eqn:Hp;
    [|rewrite (try_block_parse_error env event e Hp) in Ht; discriminate].
  destruct (_read_inputs env request) as [[[[text voice] fmt] ssml]|e] eqn:Hr;
    [|rewrite (try_block_read_error env event request e Hp Hr) in Ht; discriminate].
  rewrite (try_block_accepted env event request text voice fmt ssml Hp Hr) in Ht.
  destruct (read_inputs_ok_inv _ _ _ _ _ _ Hr) as (d & f & entry & _ & _ & _ & _ & He & _).
  rewrite (synthesize_run env text voice fmt ssml entry He) in Ht.
  rewrite (output_format_is_the_token fmt entry He) in Ht.
  destruct (polly_synthesize_speech env _) as [resp|e]; [|discriminate].
  destruct (AudioStream resp) as [[audio|e]|]; try discriminate.
  cbn [bind] in Ht.
  rewrite (store_audio_run env fmt audio entry He) in Ht.
  destruct (s3_put_object env _ _ _ _) as [[]|e] eqn:Hput; [|discriminate].
  destruct (s3_generate_presigned_url env _ _ _ _) as [url|e] eqn:Hurl; [|discriminate].
  cbn [bind ret app] in Ht. injection Ht as <- <-.
  exists request, text, voice, fmt, (extension fmt), (fst entry), audio, url, ssml.
  cbn zeta. fold (object_key env fmt).
  split; [reflexivity|]. split; [exact Hr|]. split; [exact Hh|].
  split; [reflexivity|]. split.
  { destruct (supported_cases fmt entry He) as [[-> ->]|[[-> ->]|[-> ->]]];
      [left|right; left|right; right]; now repeat split. }
  split; [reflexivity|]. split; [exact Hput|]. split; [exact Hurl|].
  split; [reflexivity|].
  exact (success_body_text env 200 url (AUDIO_BUCKET env) (object_key env fmt)
           voice fmt (fst entry) ssml).
Qed.

(** C9. [useSsml] is taken by truthiness. For an accepted request the
    flag is [bool] of the field ([False] when absent); a true flag puts
    [TextType="ssml"] among the arguments of the synthesis call and a
    false one leaves it out. The strings ["false"] and ["0"] are truthy;
    [false], [0], [null] and [""] are not. *)
Theorem use_ssml_is_truthiness
    (env : Env) (event : pyval) (context : LambdaContext) (line : pyval)
    (d : list (pystr * pyval)) (text voice fmt : pystr) (ssml : bool) :
  request_received context event = Ok line ->
  _parse_body env event = Ok (PDict d) ->
  _read_inputs env (PDict d) = Ok (text, voice, fmt, ssml) ->
  (forall v, dict_get d (lit "useSsml") = Some v -> ssml = truthy v)
  /\ (dict_get d (lit "useSsml") = None -> ssml = false)
  /\ (exists rest,
        fst (lambda_handler env event context)
        = Print (json_dumps env line)
          :: SynthesizeSpeech (synthesis_kwargs voice fmt text ssml) :: rest)
  /\ dict_get (synthesis_kwargs voice fmt text ssml) (lit "TextType")
     = (if ssml then Some (lit "ssml") else None)
  /\ truthy (PStr (lit "false")) = true
  /\ truthy (PStr (lit "0")) = true
  /\ truthy (PBool false) = false
  /\ truthy (PInt 0) = false
  /\ truthy PNone = false
  /\ truthy (PStr (lit "")) = false.
Proof.
  intros Hl Hp Hr.
  destruct (read_inputs_ok_inv _ _ _ _ _ _ Hr) as (d' & f & entry & [= <-] & _ & _ & _ & _ & _ & Hs).
  unfold get_or in Hs.
  split; [intros v Hv; now rewrite Hv in Hs|].
  split; [intros Hv; now rewrite Hv in Hs|].
  split; [exact (lambda_handler_accepted env event context line (PDict d) text voice fmt ssml Hl Hp Hr)|].
  split; [now destruct ssml|].
  now repeat split.
Qed.

(** C10. Defaults apply to a falsy field, before trimming. For an
    accepted request, a [voiceId] that is absent, [null] or [""] resolves
    to ["Joanna"], and a non-empty [voiceId] of whitespace resolves to the
    empty string, which is what the synthesis call gets as [VoiceId]. In
    the same way a [format] that is absent, [null] or [""] resolves to
    ["mp3"], while a non-empty [format] of whitespace is not defaulted:
    once the text is accepted it is rejected with the format error. *)
Theorem defaults_apply_before_trimming
    (env : Env) (event : pyval) (context : LambdaContext) (line : pyval)
    (d : list (pystr * pyval)) :
  request_received context event = Ok line ->
  _parse_body env event = Ok (PDict d) ->
  (forall text voice fmt ssml,
     _read_inputs env (PDict d) = Ok (text, voice, fmt, ssml) ->
     (dict_get d (lit "voiceId") = None
      \/ dict_get d (lit "voiceId") = Some PNone
      \/ dict_get d (lit "voiceId") = Some (PStr (lit ""))) ->
     voice = lit "Joanna")
  /\ (forall text voice fmt ssml w,
        _read_inputs env (PDict d) = Ok (text, voice, fmt, ssml) ->
        dict_get d (lit "voiceId") = Some (PStr w) -> w <> [] -> strip w = [] ->
        voice = lit ""
        /\ exists rest,
             fst (lambda_handler env event context)
             = Print (json_dumps env line)
               :: SynthesizeSpeech
                    ((lit "VoiceId", lit "") :: (lit "OutputFormat", fmt)
                     :: (if ssml then [ (lit "TextType", lit "ssml") ] else [])
                     ++ [ (lit "Text", text) ])
               :: rest)
  /\ (forall text voice fmt ssml,
        _read_inputs env (PDict d) = Ok (text, voice, fmt, ssml) ->
        (dict_get d (lit "format") = None
         \/ dict_get d (lit "format") = Some PNone
         \/ dict_get d (lit "format") = Some (PStr (lit ""))) ->
        fmt = lit "mp3")
  /\ (forall text w,
        text_accepted env d text ->
        dict_get d (lit "format") = Some (PStr w) -> w <> [] -> strip w = [] ->
        lambda_handler env event context
        = ([Print (json_dumps env line)],
           Ok (_json_response env 400
                 (error_payload (lit "'format' must be one of: mp3, ogg_vorbis, pcm"))))).
Proof.
  intros Hl Hp. split; [|split; [|split]].
  - intros text voice fmt ssml Hr Hv.
    destruct (read_inputs_ok_inv _ _ _ _ _ _ Hr)
      as (d' & f & entry & [= <-] & _ & _ & _ & _ & Hvoice & _).
    unfold get_or in Hvoice.
    destruct Hv as [Hv|[Hv|Hv]]; rewrite Hv in Hvoice;
      cbn in Hvoice; now injection Hvoice as <-.
  - intros text voice fmt ssml w Hr Hv Hw Hs.
    assert (Hvoice : voice = lit "").
    { destruct (read_inputs_ok_inv _ _ _ _ _ _ Hr)
        as (d' & f & entry & [= <-] & _ & _ & _ & _ & Hvoice & _).
      unfold get_or in Hvoice. rewrite Hv in Hvoice.
      destruct w as [|c w]; [congruence|].
      unfold py_or in Hvoice. cbn [truthy py_strip] in Hvoice.
      rewrite Hs in Hvoice. now injection Hvoice as <-. }
    subst voice. split; [reflexivity|].
    exact (lambda_handler_accepted env event context line (PDict d)
             text (lit "") fmt ssml Hl Hp Hr).
  - intros text voice fmt ssml Hr Hf.
    destruct (read_inputs_ok_inv _ _ _ _ _ _ Hr)
      as (d' & f & entry & [= <-] & _ & Hfmt & -> & _ & _ & _).
    unfold get_or in Hfmt.
    destruct Hf as [Hf|[Hf|Hf]]; rewrite Hf in Hfmt;
      cbn in Hfmt; now injection Hfmt as <-.
  - intros text w Ht Hf Hw Hs.
    apply (validation_failure env event context line (PDict d) _ Hl Hp).
    rewrite (read_inputs_text_accepted env d text Ht).
    unfold get_or. rewrite Hf.
    destruct w as [|c w]; [congruence|].
    unfold py_or. cbn [truthy py_strip]. now rewrite Hs.
Qed.

(** C4, as the code has it. For a request whose text is accepted and
    whose [format] is absent, falsy or a string: when the format, taken
    as ["mp3"] if absent or falsy, then trimmed, then lower-cased, is not
    one of [mp3], [ogg_vorbis], [pcm], the handler returns a 400 whose
    message lists exactly those three; and an absent format resolves to
    [mp3] and passes the check. *)
Theorem unsupported_format_is_rejected
    (env : Env) (event : pyval) (context : LambdaContext) (line : pyval)
    (d : list (pystr * pyval)) (text : pystr) :
  request_received context event = Ok line ->
  _parse_body env event = Ok (PDict d) ->
  text_accepted env d text ->
  (forall f,
     py_strip (py_or (get_or d (lit "format") PNone) (PStr (lit "mp3"))) = Ok f ->
     dict_get SUPPORTED_FORMATS (lower_with (unicode_lower env) f) = None ->
     lambda_handler env event context
     = ([Print (json_dumps env line)],
        Ok (_json_response env 400
              (error_payload (lit "'format' must be one of: mp3, ogg_vorbis, pcm"))))
     /\ statusCode (_json_response env 400
                      (error_payload (lit "'format' must be one of: mp3, ogg_vorbis, pcm")))
        = 400
     /\ body (_json_response env 400
                (error_payload (lit "'format' must be one of: mp3, ogg_vorbis, pcm")))
        = json_lit "{`error`: `'format' must be one of: mp3, ogg_vorbis, pcm`}")
  /\ (dict_get d (lit "format") = None ->
      _read_inputs env (PDict d)
      = (voice_id <- py_strip (py_or (get_or d (lit "voiceId") PNone) (PStr DEFAULT_VOICE)) ;;
         Ok (text, voice_id, lit "mp3", truthy (get_or d (lit "useSsml") (PBool false))))%result).
Proof.
  intros Hl Hp Ht. split.
  - intros f Hf Hs. split; [|split; reflexivity].
    apply (validation_failure env event context line (PDict d) _ Hl Hp).
    rewrite (read_inputs_text_accepted env d text Ht), Hf. cbn [rbind].
    now rewrite Hs.
  - intros Hf. rewrite (read_inputs_text_accepted env d text Ht).
    unfold get_or at 1. now rewrite Hf.
Qed.

(** X20. The unflagged path of [_parse_body]. For an event that is not
    flagged as base64, whose log line can be built and whose [body] is
    absent, [null] or [""], the text handed to [json.loads] is ["{}"];
    with a decoder that reads it as the empty object the request fails
    with the 400 for the missing text, not with ["Invalid JSON body"]. *)
Theorem empty_body_is_an_empty_object
    (env : Env) (ev : list (pystr * pyval)) (context : LambdaContext) (line : pyval) :
  request_received context (PDict ev) = Ok line ->
  json_loads env (FromValue (PStr (lit "{}"))) = Some (PDict []) ->
  (dict_get ev (lit "body") = None
   \/ dict_get ev (lit "body") = Some PNone
   \/ dict_get ev (lit "body") = Some (PStr (lit ""))) ->
  truthy (get_or ev (lit "isBase64Encoded") PNone) = false ->
  exists r,
    _parse_body env (PDict ev) = Ok (PDict [])
    /\ lambda_handler env (PDict ev) context = ([Print (json_dumps env line)], Ok r)
    /\ statusCode r = 400
    /\ body r = json_lit "{`error`: `Field 'text' is required`}"
    /\ body r <> json_lit "{`error`: `Invalid JSON body`}".
Proof.
  intros Hl Hjson Hbody Hflag.
  assert (Hp : _parse_body env (PDict ev) = Ok (PDict [])).
  { unfold _parse_body. cbn [py_get rbind]. rewrite Hflag.
    replace (py_or (get_or ev (lit "body") PNone) (PStr (lit "{}")))
      with (PStr (lit "{}"))
      by (unfold get_or; now destruct Hbody as [->|[->| ->]]).
    cbn [rbind]. now rewrite Hjson. }
  exists (_json_response env 400 (error_payload (lit "Field 'text' is required"))).
  split; [exact Hp|]. split; [|split; [reflexivity|split; [reflexivity|discriminate]]].
  apply (validation_failure env (PDict ev) context line (PDict []) _ Hl Hp).
  reflexivity.
Qed.

(** C8, at the input where it fails. The default ["{}"] is put in place
    of a missing body before the base64 step: on an event that is flagged
    as base64 and whose [body] is absent, [null] or [""], it is the
    default that is decoded; [b64decode] finds no base64 digit in it and
    gives no byte, [json.loads] refuses the empty document, and the
    answer is the 400 ["Invalid JSON body"], not the 400 for the missing
    text. *)
Theorem flagged_empty_body_is_invalid_json
    (env : Env) (ev : list (pystr * pyval)) (context : LambdaContext) (line : pyval) :
  request_received context (PDict ev) = Ok line ->
  (dict_get ev (lit "body") = None
   \/ dict_get ev (lit "body") = Some PNone
   \/ dict_get ev (lit "body") = Some (PStr (lit ""))) ->
  truthy (get_or ev (lit "isBase64Encoded") PNone) = true ->
  b64decode env (PStr (lit "{}")) = Ok [] ->
  json_loads env (FromBytes []) = None ->
  exists r,
    lambda_handler env (PDict ev) context = ([Print (json_dumps env line)], Ok r)
    /\ statusCode r = 400
    /\ body r = json_lit "{`error`: `Invalid JSON body`}"
    /\ body r <> json_lit "{`error`: `Field 'text' is required`}".
Proof.
  intros Hl Hbody Hflag Hdec Hjson.
  exists (_json_response env 400 (error_payload (lit "Invalid JSON body"))).
  split; [|split; [reflexivity|split; [reflexivity|discriminate]]].
  rewrite (lambda_handler_logged env (PDict ev) context line Hl).
  rewrite (try_block_parse_error env (PDict ev)
             (mkExc ValueError (lit "Invalid JSON body"))); [reflexivity|].
  unfold _parse_body. cbn [py_get rbind]. rewrite Hflag.
  replace (py_or (get_or ev (lit "body") PNone) (PStr (lit "{}")))
    with (PStr (lit "{}"))
    by (unfold get_or; now destruct Hbody as [->|[->| ->]]).
  rewrite Hdec. cbn [rbind]. now rewrite Hjson.
Qed.

(** Inside the [try], every exception of class [Exception] is answered. *)
Lemma errors_inside_try_are_answered
    (env : Env) (event : pyval) (context : LambdaContext) (line : pyval) :
  request_received context event = Ok line ->
  (forall t e, try_block env event = (t, Raise e) -> is_Exception e = true) ->
  exists t r, lambda_handler env event context = (t, Ok r).
Proof.
  intros Hl Hexc. rewrite (lambda_handler_logged env event context line Hl).
  destruct (try_block env event) as [t [r|e]] eqn:Ht; cbn [fst snd];
    [now do 2 eexists|].
  specialize (Hexc t e eq_refl). unfold except_clauses. rewrite Hexc.
  destruct (is_ValueError e); [now do 2 eexists|].
  destruct (is_aws_error e); now do 2 eexists.
Qed.

(** C2, at the input where it fails. The log line is built before the
    [try]: on an event whose [requestContext] is [null] the chained
    [.get] raises [AttributeError], no [except] clause is in reach, and
    the exception leaves [lambda_handler]. *)
Theorem null_request_context_escapes_the_handler
    (env : Env) (context : LambdaContext) :
  lambda_handler env (PDict [ (lit "requestContext", PNone) ]) context
  = ([], Raise (mkExc AttributeError (lit "'NoneType' object has no attribute 'get'"))).
Proof. reflexivity. Qed.

(** ** The statements on concrete events *)

Ltac run := vm_compute; reflexivity.

(** C5 on a request with a blank text, an unsupported format and a
    numeric voice. *)
Lemma blank_text_is_rejected_witness :
  lambda_handler Demo.env
    (Demo.http_event (json_lit "{`text`: ` `, `format`: `wav`, `voiceId`: 7}"))
    Demo.context
  = ([Print (json_dumps Demo.env Demo.log_line)],
     Ok (_json_response Demo.env 400 (error_payload (lit "Field 'text' is required"))))
  /\ statusCode (_json_response Demo.env 400 (error_payload (lit "Field 'text' is required"))) = 400
  /\ body (_json_response Demo.env 400 (error_payload (lit "Field 'text' is required")))
     = json_lit "{`error`: `Field 'text' is required`}".
Proof.
  apply (blank_text_is_rejected Demo.env _ Demo.context Demo.log_line
           [ (lit "text", PStr (lit " ")); (lit "format", PStr (lit "wav"));
             (lit "voiceId", PInt 7) ]).
  - run.
  - run.
  - right. right. exists (lit " "). split; run.
Defined.

(** C6 with a limit of ten characters and a text of twenty-five. *)
Lemma long_text_is_rejected_witness :
  exists message r,
    lambda_handler Demo.env_short
      (Demo.http_event (json_lit "{`text`: ` Hello world, this is long `}"))
      Demo.context
    = ([Print (json_dumps Demo.env_short Demo.log_line)], Ok r)
    /\ r = _json_response Demo.env_short 400 (error_payload message)
    /\ statusCode r = 400
    /\ message = lit "Text too long (25 chars). Limit is 10."
    /\ body r = json_lit "{`error`: `Text too long (25 chars). Limit is 10.`}"
    /\ contains (lit "25") message
    /\ contains (lit "10") message.
Proof.
  apply (long_text_is_rejected Demo.env_short _ Demo.context Demo.log_line
           [ (lit "text", PStr (lit " Hello world, this is long ")) ]
           (lit " Hello world, this is long ")).
  - cbn. lia.
  - run.
  - run.
  - run.
  - run.
Defined.

(** C7 on the answer to an empty text. *)
Lemma every_response_carries_the_cors_headers_witness :
  headers (_json_response Demo.env 400 (error_payload (lit "Field 'text' is required")))
  = [ (lit "Content-Type", lit "application/json");
      (lit "Access-Control-Allow-Origin", lit "*");
      (lit "Access-Control-Allow-Headers", lit "*");
      (lit "Access-Control-Allow-Methods", lit "OPTIONS,POST") ].
Proof.
  apply (every_response_carries_the_cors_headers Demo.env
           (Demo.http_event (json_lit "{`text`: ``}")) Demo.context
           [Print (json_dumps Demo.env Demo.log_line)]).
  run.
Defined.

(** C3 on the first end-to-end example of the specification. *)
Lemma success_names_the_written_key_witness :
  try_block Demo.env Demo.hello_event = (Demo.hello_trace, Ok Demo.hello_response)
  /\ exists request text voice fmt ext ctype audio url ssml,
       _parse_body Demo.env Demo.hello_event = Ok request
       /\ _read_inputs Demo.env request = Ok (text, voice, fmt, ssml)
       /\ lambda_handler Demo.env Demo.hello_event Demo.context
          = (Print (json_dumps Demo.env Demo.log_line) :: Demo.hello_trace,
             Ok Demo.hello_response)
       /\ statusCode Demo.hello_response = 200
       /\ ((fmt = lit "mp3" /\ ext = lit "mp3" /\ ctype = lit "audio/mpeg")
           \/ (fmt = lit "ogg_vorbis" /\ ext = lit "ogg" /\ ctype = lit "audio/ogg")
           \/ (fmt = lit "pcm" /\ ext = lit "pcm" /\ ctype = lit "audio/wave"))
       /\ Demo.hello_trace
          = [ SynthesizeSpeech (synthesis_kwargs voice fmt text ssml);
              PutObject (AUDIO_BUCKET Demo.env)
                (lit "audio/" ++ str_of_uuid (uuid4 (urandom Demo.env)) ++ lit "." ++ ext)
                audio ctype;
              GeneratePresignedUrl (lit "get_object") (AUDIO_BUCKET Demo.env)
                (lit "audio/" ++ str_of_uuid (uuid4 (urandom Demo.env)) ++ lit "." ++ ext)
                (URL_EXPIRY_SECONDS Demo.env) ]
       /\ s3_put_object Demo.env (AUDIO_BUCKET Demo.env)
            (lit "audio/" ++ str_of_uuid (uuid4 (urandom Demo.env)) ++ lit "." ++ ext)
            audio ctype = Ok tt
       /\ s3_generate_presigned_url Demo.env (lit "get_object") (AUDIO_BUCKET Demo.env)
            (lit "audio/" ++ str_of_uuid (uuid4 (urandom Demo.env)) ++ lit "." ++ ext)
            (URL_EXPIRY_SECONDS Demo.env) = Ok url
       /\ Demo.hello_response
          = _json_response Demo.env 200
              (PDict [ (lit "audioUrl", PStr url);
                       (lit "bucket", PStr (AUDIO_BUCKET Demo.env));
                       (lit "key",
                          PStr (lit "audio/" ++ str_of_uuid (uuid4 (urandom Demo.env))
                                ++ lit "." ++ ext));
                       (lit "voiceId", PStr voice);
                       (lit "format", PStr fmt);
                       (lit "contentType", PStr ctype);
                       (lit "ssml", PBool ssml) ])
       /\ body Demo.hello_response
          = json_lit "{`audioUrl`: " ++ json_str url
            ++ json_lit ", `bucket`: " ++ json_str (AUDIO_BUCKET Demo.env)
            ++ json_lit ", `key`: "
            ++ json_str (lit "audio/" ++ str_of_uuid (uuid4 (urandom Demo.env))
                         ++ lit "." ++ ext)
            ++ json_lit ", `voiceId`: " ++ json_str voice
            ++ json_lit ", `format`: " ++ json_str fmt
            ++ json_lit ", `contentType`: " ++ json_str ctype
            ++ json_lit ", `ssml`: " ++ (if ssml then lit "true" else lit "false")
            ++ json_lit "}".
Proof.
  split; [run|].
  apply (success_names_the_written_key Demo.env Demo.hello_event Demo.context
           Demo.log_line Demo.hello_trace Demo.hello_response).
  - run.
  - run.
Defined.

(** The body of that answer, as text. *)
Lemma hello_body_text :
  body Demo.hello_response
  = json_lit "{`audioUrl`: `https://azubi-audio.s3.amazonaws.com/audio/01234567-89ab-4def-8123-456789abcdef.mp3?X-Amz-Expires=3600`, `bucket`: `azubi-audio`, `key`: `audio/01234567-89ab-4def-8123-456789abcdef.mp3`, `voiceId`: `Joanna`, `format`: `mp3`, `contentType`: `audio/mpeg`, `ssml`: false}".
Proof. run. Qed.

(** C1, as stated, on an accepted request and a synthesis client without
    audio: the answer is a 500, yet its label is ["Unexpected error"], and
    no detail makes it the ["AWS error"] body. *)
Lemma missing_audio_stream_is_not_an_aws_error :
  polly_synthesize_speech Demo.env_no_stream
    (synthesis_kwargs (lit "Joanna") (lit "mp3") (lit "Hello world") false)
  = Ok {| AudioStream := None |}
  /\ exists r,
       lambda_handler Demo.env_no_stream Demo.hello_event Demo.context
       = ([ Print (json_dumps Demo.env_no_stream Demo.log_line);
            SynthesizeSpeech
              (synthesis_kwargs (lit "Joanna") (lit "mp3") (lit "Hello world") false) ],
          Ok r)
       /\ statusCode r = 500
       /\ body r
          = json_lit "{`error`: `Unexpected error`, `detail`: `Polly returned no audio stream`}"
       /\ forall detail,
            r <> _json_response Demo.env_no_stream 500
                   (PDict [ (lit "error", PStr (lit "AWS error"));
                            (lit "detail", PStr detail) ]).
Proof.
  split; [reflexivity|].
  eexists. split; [run|]. split; [reflexivity|]. split; [reflexivity|].
  intros detail H. apply (f_equal body) in H. discriminate H.
Qed.

Lemma missing_audio_stream_is_an_unexpected_error_witness :
  exists r,
    lambda_handler Demo.env_no_stream Demo.hello_event Demo.context
    = ([ Print (json_dumps Demo.env_no_stream Demo.log_line);
         SynthesizeSpeech
           (synthesis_kwargs (lit "Joanna") (lit "mp3") (lit "Hello world") false) ],
       Ok r)
    /\ r = _json_response Demo.env_no_stream 500
             (PDict [ (lit "error", PStr (lit "Unexpected error"));
                      (lit "detail", PStr (lit "Polly returned no audio stream")) ])
    /\ statusCode r = 500
    /\ body r
       = json_lit "{`error`: `Unexpected error`, `detail`: `Polly returned no audio stream`}".
Proof.
  apply (missing_audio_stream_is_an_unexpected_error Demo.env_no_stream
           Demo.hello_event Demo.context Demo.log_line
           (PDict [ (lit "text", PStr (lit "Hello world")); (lit "format", PStr (lit "mp3")) ])).
  - run.
  - run.
  - run.
  - reflexivity.
Defined.

(** C9 on a request whose [useSsml] is the string ["false"]: the flag is
    true and the synthesis call is in markup mode. *)
Lemma use_ssml_is_truthiness_witness :
  _read_inputs Demo.env
    (PDict [ (lit "text", PStr (lit "<speak>Hi</speak>"));
             (lit "useSsml", PStr (lit "false")) ])
  = Ok (lit "<speak>Hi</speak>", lit "Joanna", lit "mp3", true)
  /\ exists rest,
       fst (lambda_handler Demo.env
              (Demo.http_event (json_lit "{`text`: `<speak>Hi</speak>`, `useSsml`: `false`}"))
              Demo.context)
       = Print (json_dumps Demo.env Demo.log_line)
         :: SynthesizeSpeech
              [ (lit "VoiceId", lit "Joanna"); (lit "OutputFormat", lit "mp3");
                (lit "TextType", lit "ssml"); (lit "Text", lit "<speak>Hi</speak>") ]
         :: rest.
Proof.
  split; [run|].
  destruct (use_ssml_is_truthiness Demo.env
              (Demo.http_event (json_lit "{`text`: `<speak>Hi</speak>`, `useSsml`: `false`}"))
              Demo.context Demo.log_line
              [ (lit "text", PStr (lit "<speak>Hi</speak>"));
                (lit "useSsml", PStr (lit "false")) ]
              (lit "<speak>Hi</speak>") (lit "Joanna") (lit "mp3") true)
    as (_ & _ & H & _); [run|run|run|exact H].
Defined.

(** C10 on a request whose [voiceId] is one space: the synthesis call
    gets the empty voice. *)
Lemma defaults_apply_before_trimming_witness :
  exists rest,
    fst (lambda_handler Demo.env
           (Demo.http_event (json_lit "{`text`: `hi`, `voiceId`: ` `}")) Demo.context)
    = Print (json_dumps Demo.env Demo.log_line)
      :: SynthesizeSpeech
           [ (lit "VoiceId", lit ""); (lit "OutputFormat", lit "mp3");
             (lit "Text", lit "hi") ]
      :: rest.
Proof.
  destruct (defaults_apply_before_trimming Demo.env
              (Demo.http_event (json_lit "{`text`: `hi`, `voiceId`: ` `}"))
              Demo.context Demo.log_line
              [ (lit "text", PStr (lit "hi")); (lit "voiceId", PStr (lit " ")) ])
    as (_ & H & _); [run|run|].
  destruct (H (lit "hi") (lit "") (lit "mp3") false (lit " ")) as [_ Hcall];
    [run|run|discriminate|run|exact Hcall].
Defined.

(** C4, as stated, on a format that is not a supported token after
    lower-casing alone: the handler trims it as well, accepts it, and
    answers 200. *)
Lemma padded_format_is_accepted :
  _parse_body Demo.env (Demo.http_event (json_lit "{`text`: `hi`, `format`: ` MP3 `}"))
  = Ok (PDict [ (lit "text", PStr (lit "hi")); (lit "format", PStr (lit " MP3 ")) ])
  /\ lower_with (unicode_lower Demo.env) (lit " MP3 ") = lit " mp3 "
  /\ dict_get SUPPORTED_FORMATS (lit " mp3 ") = None
  /\ exists t r,
       lambda_handler Demo.env
         (Demo.http_event (json_lit "{`text`: `hi`, `format`: ` MP3 `}")) Demo.context
       = (t, Ok r)
       /\ statusCode r = 200.
Proof.
  split; [run|]. split; [run|]. split; [run|].
  do 2 eexists. split; [run|reflexivity].
Qed.

(** C4, as the code has it, on the third end-to-end example of the
    specification. *)
Lemma unsupported_format_is_rejected_witness :
  lambda_handler Demo.env
    (Demo.http_event (json_lit "{`text`: `hi`, `format`: `wav`}")) Demo.context
  = ([Print (json_dumps Demo.env Demo.log_line)],
     Ok (_json_response Demo.env 400
           (error_payload (lit "'format' must be one of: mp3, ogg_vorbis, pcm"))))
  /\ statusCode (_json_response Demo.env 400
                   (error_payload (lit "'format' must be one of: mp3, ogg_vorbis, pcm")))
     = 400
  /\ body (_json_response Demo.env 400
             (error_payload (lit "'format' must be one of: mp3, ogg_vorbis, pcm")))
     = json_lit "{`error`: `'format' must be one of: mp3, ogg_vorbis, pcm`}".
Proof.
  destruct (unsupported_format_is_rejected Demo.env
              (Demo.http_event (json_lit "{`text`: `hi`, `format`: `wav`}"))
              Demo.context Demo.log_line
              [ (lit "text", PStr (lit "hi")); (lit "format", PStr (lit "wav")) ]
              (lit "hi"))
    as [H _]; [run|run| |exact (H (lit "wav") eq_refl eq_refl)].
  split; [run|]. split; [discriminate|cbn; lia].
Defined.

(** C8 on an event without a body that is flagged as base64, with the
    reference runtime: [b64decode] of the default ["{}"] leaves no byte. *)
Lemma flagged_empty_body_is_invalid_json_witness :
  b64decode Demo.env (PStr (lit "{}")) = Ok []
  /\ json_loads Demo.env (FromBytes []) = None
  /\ exists r,
       lambda_handler Demo.env (PDict (Demo.bodyless_fields true)) Demo.context
       = ([Print (json_dumps Demo.env Demo.log_line)], Ok r)
       /\ statusCode r = 400
       /\ body r = json_lit "{`error`: `Invalid JSON body`}"
       /\ body r <> json_lit "{`error`: `Field 'text' is required`}".
Proof.
  split; [run|]. split; [run|].
  apply (flagged_empty_body_is_invalid_json Demo.env (Demo.bodyless_fields true)
           Demo.context Demo.log_line).
  - run.
  - right. left. run.
  - run.
  - run.
  - run.
Defined.

(** X20 on the same event without the flag. *)
Lemma empty_body_is_an_empty_object_witness :
  exists r,
    _parse_body Demo.env (PDict (Demo.bodyless_fields false)) = Ok (PDict [])
    /\ lambda_handler Demo.env (PDict (Demo.bodyless_fields false)) Demo.context
       = ([Print (json_dumps Demo.env Demo.log_line)], Ok r)
    /\ statusCode r = 400
    /\ body r = json_lit "{`error`: `Field 'text' is required`}"
    /\ body r <> json_lit "{`error`: `Invalid JSON body`}".
Proof.
  apply (empty_body_is_an_empty_object Demo.env (Demo.bodyless_fields false)
           Demo.context Demo.log_line).
  - run.
  - run.
  - right. left. run.
  - run.
Defined.

(** ** Further properties: failing clients *)

Lemma except_value_error (env : Env) (e : pyexc) :
  is_ValueError e = true ->
  except_clauses env e = Ok (_json_response env 400 (error_payload (exc_str e))).
Proof. intros H. unfold except_clauses. now rewrite H. Qed.

Lemma except_aws_error (env : Env) (e : pyexc) :
  is_ValueError e = false ->
  is_aws_error e = true ->
  except_clauses env e = Ok (_json_response env 500 (aws_payload (exc_str e))).
Proof. intros Hv Ha. unfold except_clauses. now rewrite Hv, Ha. Qed.

Lemma except_attribute_error (env : Env) (message : pystr) :
  except_clauses env (mkExc AttributeError message)
  = Ok (_json_response env 500 (unexpected_payload message)).
Proof. reflexivity. Qed.

(** The handler on an accepted request, up to the end of synthesis. *)
Lemma lambda_handler_synthesis
    (env : Env) (event : pyval) (context : LambdaContext) (line request : pyval)
    (text voice fmt : pystr) (ssml : bool) :
  request_received context event = Ok line ->
  _parse_body env event = Ok request ->
  _read_inputs env request = Ok (text, voice, fmt, ssml) ->
  exists entry,
    dict_get SUPPORTED_FORMATS fmt = Some entry
    /\ lambda_handler env event context
       = match polly_synthesize_speech env (synthesis_kwargs voice fmt text ssml) with
         | Raise e =>
             ([ Print (json_dumps env line);
                SynthesizeSpeech (synthesis_kwargs voice fmt text ssml) ],
              except_clauses env e)
         | Ok resp =>
             match AudioStream resp with
             | None =>
                 ([ Print (json_dumps env line);
                    SynthesizeSpeech (synthesis_kwargs voice fmt text ssml) ],
                  except_clauses env
                    (mkExc RuntimeError (lit "Polly returned no audio stream")))
             | Some (Raise e) =>
                 ([ Print (json_dumps env line);
                    SynthesizeSpeech (synthesis_kwargs voice fmt text ssml) ],
                  except_clauses env e)
             | Some (Ok audio) =>
                 let put :=
                   s3_put_object env (AUDIO_BUCKET env) (object_key env fmt) audio
                     (fst entry) in
                 let sign :=
                   s3_generate_presigned_url env (lit "get_object") (AUDIO_BUCKET env)
                     (object_key env fmt) (URL_EXPIRY_SECONDS env) in
                 (Print (json_dumps env line)
                  :: SynthesizeSpeech (synthesis_kwargs voice fmt text ssml)
                  :: PutObject (AUDIO_BUCKET env) (object_key env fmt) audio (fst entry)
                  :: match put with
                     | Ok _ => [ GeneratePresignedUrl (lit "get_object") (AUDIO_BUCKET env)
                                   (object_key env fmt) (URL_EXPIRY_SECONDS env) ]
                     | Raise _ => []
                     end,
                  match put with
                  | Raise e => except_clauses env e
                  | Ok _ =>
                      match sign with
                      | Raise e => except_clauses env e
                      | Ok url =>
                          Ok (_json_response env 200
                                (PDict [ (lit "audioUrl", PStr url);
                                         (lit "bucket", PStr (AUDIO_BUCKET env));
                                         (lit "key", PStr (object_key env fmt));
                                         (lit "voiceId", PStr voice);
                                         (lit "format", PStr fmt);
                                         (lit "contentType", PStr (fst entry));
                                         (lit "ssml", PBool ssml) ]))
                      end
                  end)
             end
         end.
Proof.
  intros Hl Hp Hr.
  destruct (read_inputs_ok_inv _ _ _ _ _ _ Hr) as (d & f & entry & _ & _ & _ & _ & He & _).
  exists entry. split; [exact He|].
  rewrite (lambda_handler_logged env event context line Hl).
  rewrite (try_block_accepted env event request text voice fmt ssml Hp Hr).
  rewrite (synthesize_run env text voice fmt ssml entry He).
  rewrite (output_format_is_the_token fmt entry He).
  destruct (polly_synthesize_speech env _) as [resp|e]; [|reflexivity].
  destruct (AudioStream resp) as [[audio|e]|]; [|reflexivity|reflexivity].
  cbn [bind]. rewrite (store_audio_run env fmt audio entry He).
  cbn zeta.
  destruct (s3_put_object env _ _ _ _) as [u|e]; [|reflexivity].
  now destruct (s3_generate_presigned_url env _ _ _ _).
Qed.

(** X1. The [except] clauses are tried in their order. When the
    synthesis client raises a [BotoCoreError] or a [ClientError] on an
    accepted request, the storage client is not called; the answer is a
    500 whose body is labelled ["AWS error"] with the text of the
    exception as detail, unless the exception is a [ValueError] as well:
    then the first clause answers, with a 400 whose message is that
    text. *)
Theorem provider_error_is_an_aws_error
    (env : Env) (event : pyval) (context : LambdaContext) (line request : pyval)
    (text voice fmt : pystr) (ssml : bool) (e : pyexc) :
  request_received context event = Ok line ->
  _parse_body env event = Ok request ->
  _read_inputs env request = Ok (text, voice, fmt, ssml) ->
  polly_synthesize_speech env (synthesis_kwargs voice fmt text ssml) = Raise e ->
  is_aws_error e = true ->
  exists r,
    lambda_handler env event context
    = ([ Print (json_dumps env line);
         SynthesizeSpeech (synthesis_kwargs voice fmt text ssml) ],
       Ok r)
    /\ (is_ValueError e = false ->
        statusCode r = 500
        /\ body r = json_lit "{`error`: `AWS error`, `detail`: "
                    ++ json_str (exc_str e) ++ json_lit "}")
    /\ (is_ValueError e = true ->
        statusCode r = 400
        /\ body r = json_lit "{`error`: " ++ json_str (exc_str e) ++ json_lit "}").
Proof.
  intros Hl Hp Hr Hpolly Haws.
  destruct (lambda_handler_synthesis env event context line request text voice fmt ssml
              Hl Hp Hr) as (entry & _ & ->).
  rewrite Hpolly. destruct (is_ValueError e) eqn:Hve.
  - rewrite (except_value_error env e Hve). eexists. split; [reflexivity|].
    split; [discriminate|]. intros _. split; [reflexivity|apply error_body_text].
  - rewrite (except_aws_error env e Hve Haws). eexists. split; [reflexivity|].
    split; [|discriminate]. intros _. split; [reflexivity|apply aws_body_text].
Qed.

Lemma provider_error_is_an_aws_error_witness :
  (exists r,
     lambda_handler Faults.env_polly_fails Demo.hello_event Demo.context
     = ([ Print (json_dumps Faults.env_polly_fails Demo.log_line);
          SynthesizeSpeech
            (synthesis_kwargs (lit "Joanna") (lit "mp3") (lit "Hello world") false) ],
        Ok r)
     /\ statusCode r = 500
     /\ body r
        = json_lit "{`error`: `AWS error`, `detail`: `An error occurred (ThrottlingException) when calling the SynthesizeSpeech operation: Rate exceeded`}")
  /\ (exists r,
        lambda_handler Faults.env_region_fails Demo.hello_event Demo.context
        = ([ Print (json_dumps Faults.env_region_fails Demo.log_line);
             SynthesizeSpeech
               (synthesis_kwargs (lit "Joanna") (lit "mp3") (lit "Hello world") false) ],
           Ok r)
        /\ statusCode r = 400
        /\ body r
           = json_lit "{`error`: `Provided region_name 'eu west 1' doesn't match a supported format.`}").
Proof.
  split.
  - destruct (provider_error_is_an_aws_error Faults.env_polly_fails Demo.hello_event
                Demo.context Demo.log_line
                (PDict [ (lit "text", PStr (lit "Hello world"));
                         (lit "format", PStr (lit "mp3")) ])
                (lit "Hello world") (lit "Joanna") (lit "mp3") false Faults.throttled)
      as (r & Hrun & H500 & _); [run|run|run|reflexivity|reflexivity|].
    exists r. split; [exact Hrun|]. exact (H500 eq_refl).
  - destruct (provider_error_is_an_aws_error Faults.env_region_fails Demo.hello_event
                Demo.context Demo.log_line
                (PDict [ (lit "text", PStr (lit "Hello world"));
                         (lit "format", PStr (lit "mp3")) ])
                (lit "Hello world") (lit "Joanna") (lit "mp3") false Faults.invalid_region)
      as (r & Hrun & _ & H400); [run|run|run|reflexivity|reflexivity|].
    exists r. split; [exact Hrun|]. exact (H400 eq_refl).
Defined.

(** X2. The first [except] clause is in reach of the whole [try] body: a
    [ValueError] raised while the audio stream is read is answered like a
    validation failure, with a 400 whose body carries the text of that
    exception as its message, and nothing is stored. *)
Theorem value_error_from_the_stream_is_a_400
    (env : Env) (event : pyval) (context : LambdaContext) (line request : pyval)
    (text voice fmt : pystr) (ssml : bool) (resp : polly_response) (e : pyexc) :
  request_received context event = Ok line ->
  _parse_body env event = Ok request ->
  _read_inputs env request = Ok (text, voice, fmt, ssml) ->
  polly_synthesize_speech env (synthesis_kwargs voice fmt text ssml) = Ok resp ->
  AudioStream resp = Some (Raise e) ->
  is_ValueError e = true ->
  exists r,
    lambda_handler env event context
    = ([ Print (json_dumps env line);
         SynthesizeSpeech (synthesis_kwargs voice fmt text ssml) ],
       Ok r)
    /\ statusCode r = 400
    /\ body r = json_lit "{`error`: " ++ json_str (exc_str e) ++ json_lit "}".
Proof.
  intros Hl Hp Hr Hpolly Hstream Hve.
  destruct (lambda_handler_synthesis env event context line request text voice fmt ssml
              Hl Hp Hr) as (entry & _ & ->).
  rewrite Hpolly, Hstream, (except_value_error env e Hve).
  eexists. split; [reflexivity|]. split; [reflexivity|apply error_body_text].
Qed.

Lemma value_error_from_the_stream_is_a_400_witness :
  exists r,
    lambda_handler Faults.env_stream_fails Demo.hello_event Demo.context
    = ([ Print (json_dumps Faults.env_stream_fails Demo.log_line);
         SynthesizeSpeech
           (synthesis_kwargs (lit "Joanna") (lit "mp3") (lit "Hello world") false) ],
       Ok r)
    /\ statusCode r = 400
    /\ body r = json_lit "{`error`: `I/O operation on closed file.`}".
Proof.
  apply (value_error_from_the_stream_is_a_400 Faults.env_stream_fails Demo.hello_event
           Demo.context Demo.log_line
           (PDict [ (lit "text", PStr (lit "Hello world")); (lit "format", PStr (lit "mp3")) ])
           (lit "Hello world") (lit "Joanna") (lit "mp3") false
           {| AudioStream := Some (Raise Faults.broken_stream) |} Faults.broken_stream).
  - run.
  - run.
  - run.
  - reflexivity.
  - reflexivity.
  - reflexivity.
Defined.

(** X3. When the write to the bucket fails with a provider error that is
    not a [ValueError], the answer is a 500 whose body is labelled
    ["AWS error"], and no URL is asked for: the write is the last call. *)
Theorem failed_write_is_not_signed
    (env : Env) (event : pyval) (context : LambdaContext) (line request : pyval)
    (text voice fmt : pystr) (ssml : bool) (resp : polly_response)
    (audio : pybytes) (e : pyexc) :
  request_received context event = Ok line ->
  _parse_body env event = Ok request ->
  _read_inputs env request = Ok (text, voice, fmt, ssml) ->
  polly_synthesize_speech env (synthesis_kwargs voice fmt text ssml) = Ok resp ->
  AudioStream resp = Some (Ok audio) ->
  s3_put_object env (AUDIO_BUCKET env) (object_key env fmt) audio (content_type_of fmt)
  = Raise e ->
  is_aws_error e = true ->
  is_ValueError e = false ->
  exists r,
    lambda_handler env event context
    = ([ Print (json_dumps env line);
         SynthesizeSpeech (synthesis_kwargs voice fmt text ssml);
         PutObject (AUDIO_BUCKET env) (object_key env fmt) audio (content_type_of fmt) ],
       Ok r)
    /\ statusCode r = 500
    /\ body r = json_lit "{`error`: `AWS error`, `detail`: "
                ++ json_str (exc_str e) ++ json_lit "}".
Proof.
  intros Hl Hp Hr Hpolly Hstream Hput Haws Hve.
  destruct (lambda_handler_synthesis env event context line request text voice fmt ssml
              Hl Hp Hr) as (entry & He & ->).
  assert (Hct : fst entry = content_type_of fmt)
    by (unfold content_type_of; now rewrite He).
  rewrite Hpolly, Hstream, Hct. cbn zeta.
  rewrite Hput, (except_aws_error env e Hve Haws).
  eexists. split; [reflexivity|]. split; [reflexivity|apply aws_body_text].
Qed.

Lemma failed_write_is_not_signed_witness :
  exists r,
    lambda_handler Faults.env_put_fails Demo.hello_event Demo.context
    = ([ Print (json_dumps Faults.env_put_fails Demo.log_line);
         SynthesizeSpeech
           (synthesis_kwargs (lit "Joanna") (lit "mp3") (lit "Hello world") false);
         PutObject (lit "azubi-audio") Demo.hello_key [x49; x44; x33] (lit "audio/mpeg") ],
       Ok r)
    /\ statusCode r = 500
    /\ body r
       = json_lit "{`error`: `AWS error`, `detail`: `An error occurred (AccessDenied) when calling the PutObject operation: Access Denied`}".
Proof.
  apply (failed_write_is_not_signed Faults.env_put_fails Demo.hello_event
           Demo.context Demo.log_line
           (PDict [ (lit "text", PStr (lit "Hello world")); (lit "format", PStr (lit "mp3")) ])
           (lit "Hello world") (lit "Joanna") (lit "mp3") false
           {| AudioStream := Some (Ok [x49; x44; x33]) |} [x49; x44; x33]
           Faults.access_denied).
  - run.
  - run.
  - run.
  - reflexivity.
  - reflexivity.
  - reflexivity.
  - reflexivity.
  - reflexivity.
Defined.

(** X4. When the write succeeds and the signing fails with a provider
    error that is not a [ValueError], the answer is a 500 whose body is
    labelled ["AWS error"] although the object has been written: the trace
    holds the write under the key, and nothing takes it back. *)
Theorem failed_signing_leaves_the_object
    (env : Env) (event : pyval) (context : LambdaContext) (line request : pyval)
    (text voice fmt : pystr) (ssml : bool) (resp : polly_response)
    (audio : pybytes) (e : pyexc) :
  request_received context event = Ok line ->
  _parse_body env event = Ok request ->
  _read_inputs env request = Ok (text, voice, fmt, ssml) ->
  polly_synthesize_speech env (synthesis_kwargs voice fmt text ssml) = Ok resp ->
  AudioStream resp = Some (Ok audio) ->
  s3_put_object env (AUDIO_BUCKET env) (object_key env fmt) audio (content_type_of fmt)
  = Ok tt ->
  s3_generate_presigned_url env (lit "get_object") (AUDIO_BUCKET env)
    (object_key env fmt) (URL_EXPIRY_SECONDS env) = Raise e ->
  is_aws_error e = true ->
  is_ValueError e = false ->
  exists r,
    lambda_handler env event context
    = ([ Print (json_dumps env line);
         SynthesizeSpeech (synthesis_kwargs voice fmt text ssml);
         PutObject (AUDIO_BUCKET env) (object_key env fmt) audio (content_type_of fmt);
         GeneratePresignedUrl (lit "get_object") (AUDIO_BUCKET env)
           (object_key env fmt) (URL_EXPIRY_SECONDS env) ],
       Ok r)
    /\ statusCode r = 500
    /\ body r = json_lit "{`error`: `AWS error`, `detail`: "
                ++ json_str (exc_str e) ++ json_lit "}".
Proof.
  intros Hl Hp Hr Hpolly Hstream Hput Hsign Haws Hve.
  destruct (lambda_handler_synthesis env event context line request text voice fmt ssml
              Hl Hp Hr) as (entry & He & ->).
  assert (Hct : fst entry = content_type_of fmt)
    by (unfold content_type_of; now rewrite He).
  rewrite Hpolly, Hstream, Hct. cbn zeta.
  rewrite Hput, Hsign, (except_aws_error env e Hve Haws).
  eexists. split; [reflexivity|]. split; [reflexivity|apply aws_body_text].
Qed.

Lemma failed_signing_leaves_the_object_witness :
  exists r,
    lambda_handler Faults.env_sign_fails Demo.hello_event Demo.context
    = ([ Print (json_dumps Faults.env_sign_fails Demo.log_line);
         SynthesizeSpeech
           (synthesis_kwargs (lit "Joanna") (lit "mp3") (lit "Hello world") false);
         PutObject (lit "azubi-audio") Demo.hello_key [x49; x44; x33] (lit "audio/mpeg");
         GeneratePresignedUrl (lit "get_object") (lit "azubi-audio") Demo.hello_key 3600 ],
       Ok r)
    /\ statusCode r = 500
    /\ body r = json_lit "{`error`: `AWS error`, `detail`: `Unable to locate credentials`}".
Proof.
  apply (failed_signing_leaves_the_object Faults.env_sign_fails Demo.hello_event
           Demo.context Demo.log_line
           (PDict [ (lit "text", PStr (lit "Hello world")); (lit "format", PStr (lit "mp3")) ])
           (lit "Hello world") (lit "Joanna") (lit "mp3") false
           {| AudioStream := Some (Ok [x49; x44; x33]) |} [x49; x44; x33]
           Faults.no_credentials).
  - run.
  - run.
  - run.
  - reflexivity.
  - reflexivity.
  - reflexivity.
  - reflexivity.
  - reflexivity.
  - reflexivity.
Defined.

(** ** Further properties: malformed requests *)

Section Malformed.
Context (env : Env) (event : pyval) (context : LambdaContext) (line : pyval).
Hypothesis logged : request_received context event = Ok line.

Lemma lambda_handler_parse_error (e : pyexc) :
  _parse_body env event = Raise e ->
  lambda_handler env event context
  = ([Print (json_dumps env line)], except_clauses env e).
Proof.
  intros Hp. rewrite (lambda_handler_logged env event context line logged).
  now rewrite (try_block_parse_error env event e Hp).
Qed.

Lemma lambda_handler_read_error (request : pyval) (e : pyexc) :
  _parse_body env event = Ok request ->
  _read_inputs env request = Raise e ->
  lambda_handler env event context
  = ([Print (json_dumps env line)], except_clauses env e).
Proof.
  intros Hp Hr. rewrite (lambda_handler_logged env event context line logged).
  now rewrite (try_block_read_error env event request e Hp Hr).
Qed.

End Malformed.

Lemma py_strip_non_str (v : pyval) :
  (forall s, v <> PStr s) -> py_strip v = no_attribute v "strip".
Proof. intros H. destruct v; try reflexivity. now destruct (H s). Qed.

Lemma no_get_body_text (env : Env) (v : pyval) :
  body (_json_response env 500
          (unexpected_payload
             (lit "'" ++ type_name v ++ lit "' object has no attribute 'get'")))
  = json_lit "{`error`: `Unexpected error`, `detail`: `'" ++ type_name v
    ++ json_lit "' object has no attribute 'get'`}".
Proof. destruct v; reflexivity. Qed.

Lemma no_strip_body_text (env : Env) (v : pyval) :
  body (_json_response env 500
          (unexpected_payload
             (lit "'" ++ type_name v ++ lit "' object has no attribute 'strip'")))
  = json_lit "{`error`: `Unexpected error`, `detail`: `'" ++ type_name v
    ++ json_lit "' object has no attribute 'strip'`}".
Proof. destruct v; reflexivity. Qed.

(** X5. A body that [json.loads] refuses, as it stands or after a
    successful base64 decoding, gets a 400 whose body is
    [{"error": "Invalid JSON body"}], and no client is called. *)
Theorem invalid_json_is_a_400
    (env : Env) (ev : list (pystr * pyval)) (context : LambdaContext) (line : pyval) :
  request_received context (PDict ev) = Ok line ->
  (truthy (get_or ev (lit "isBase64Encoded") PNone) = false
   /\ json_loads env
        (FromValue (py_or (get_or ev (lit "body") PNone) (PStr (lit "{}")))) = None)
  \/ (exists decoded,
        truthy (get_or ev (lit "isBase64Encoded") PNone) = true
        /\ b64decode env (py_or (get_or ev (lit "body") PNone) (PStr (lit "{}")))
           = Ok decoded
        /\ json_loads env (FromBytes decoded) = None) ->
  exists r,
    lambda_handler env (PDict ev) context = ([Print (json_dumps env line)], Ok r)
    /\ statusCode r = 400
    /\ body r = json_lit "{`error`: `Invalid JSON body`}".
Proof.
  intros Hl H.
  exists (_json_response env 400 (error_payload (lit "Invalid JSON body"))).
  split; [|split; reflexivity].
  apply (lambda_handler_parse_error env (PDict ev) context line Hl
           (mkExc ValueError (lit "Invalid JSON body"))).
  unfold _parse_body. cbn [py_get rbind].
  destruct H as [[Hflag Hjson] | (decoded & Hflag & Hdec & Hjson)]; rewrite Hflag.
  - cbn [rbind]. now rewrite Hjson.
  - rewrite Hdec. cbn [rbind]. now rewrite Hjson.
Qed.

Lemma invalid_json_is_a_400_witness :
  exists r,
    lambda_handler Demo.env (Demo.http_event (json_lit "{`text`: `hi`,}")) Demo.context
    = ([Print (json_dumps Demo.env Demo.log_line)], Ok r)
    /\ statusCode r = 400
    /\ body r = json_lit "{`error`: `Invalid JSON body`}".
Proof.
  apply (invalid_json_is_a_400 Demo.env
           [ (lit "rawPath", PStr (lit "/synthesize"));
             (lit "requestContext", Demo.request_context);
             (lit "body", PStr (json_lit "{`text`: `hi`,}"));
             (lit "isBase64Encoded", PBool false) ]
           Demo.context Demo.log_line).
  - run.
  - left. split; run.
Defined.

(** X6. The base64 decoding stands outside the [try] of [_parse_body]:
    when it raises a [ValueError] (as [binascii.Error] is), the answer is
    a 400 whose body carries the decoder's own message, not
    ["Invalid JSON body"]. *)
Theorem base64_error_keeps_its_message
    (env : Env) (ev : list (pystr * pyval)) (context : LambdaContext) (line : pyval)
    (e : pyexc) :
  request_received context (PDict ev) = Ok line ->
  truthy (get_or ev (lit "isBase64Encoded") PNone) = true ->
  b64decode env (py_or (get_or ev (lit "body") PNone) (PStr (lit "{}"))) = Raise e ->
  is_ValueError e = true ->
  exists r,
    lambda_handler env (PDict ev) context = ([Print (json_dumps env line)], Ok r)
    /\ statusCode r = 400
    /\ body r = json_lit "{`error`: " ++ json_str (exc_str e) ++ json_lit "}".
Proof.
  intros Hl Hflag Hdec Hve.
  exists (_json_response env 400 (error_payload (exc_str e))).
  split; [|split; [reflexivity|apply error_body_text]].
  rewrite (lambda_handler_parse_error env (PDict ev) context line Hl e).
  - now rewrite (except_value_error env e Hve).
  - unfold _parse_body. cbn [py_get rbind]. now rewrite Hflag, Hdec.
Qed.

Lemma base64_error_keeps_its_message_witness :
  exists r,
    lambda_handler Demo.env (Faults.flagged_event (lit "eyJ0ZXh0IjogImhpIn0"))
      Demo.context
    = ([Print (json_dumps Demo.env Demo.log_line)], Ok r)
    /\ statusCode r = 400
    /\ body r = json_lit "{`error`: `Incorrect padding`}".
Proof.
  apply (base64_error_keeps_its_message Demo.env
           [ (lit "rawPath", PStr (lit "/synthesize"));
             (lit "requestContext", Demo.request_context);
             (lit "body", PStr (lit "eyJ0ZXh0IjogImhpIn0"));
             (lit "isBase64Encoded", PBool true) ]
           Demo.context Demo.log_line
           (mkExc BinasciiError (lit "Incorrect padding"))).
  - run.
  - run.
  - run.
  - reflexivity.
Defined.

(** X7. A body that [json.loads] decodes to something that is not an
    object (an array, a string, a number, [true], [null]) is not a
    validation failure: [body.get] raises [AttributeError] and the answer
    is a 500 whose body is labelled ["Unexpected error"] and names the
    type; no client is called. *)
Theorem non_object_body_is_a_500
    (env : Env) (event : pyval) (context : LambdaContext) (line v : pyval) :
  request_received context event = Ok line ->
  _parse_body env event = Ok v ->
  (forall d, v <> PDict d) ->
  exists r,
    lambda_handler env event context = ([Print (json_dumps env line)], Ok r)
    /\ statusCode r = 500
    /\ body r
       = json_lit "{`error`: `Unexpected error`, `detail`: `'" ++ type_name v
         ++ json_lit "' object has no attribute 'get'`}".
Proof.
  intros Hl Hp Hv.
  exists (_json_response env 500
            (unexpected_payload
               (lit "'" ++ type_name v ++ lit "' object has no attribute 'get'"))).
  split; [|split; [reflexivity|apply no_get_body_text]].
  rewrite (lambda_handler_read_error env event context line Hl v
             (mkExc AttributeError
                (lit "'" ++ type_name v ++ lit "' object has no attribute 'get'")) Hp).
  - now rewrite except_attribute_error.
  - destruct v; try reflexivity. now destruct (Hv d).
Qed.

Lemma non_object_body_is_a_500_witness :
  exists r,
    lambda_handler Demo.env (Demo.http_event (json_lit "[`hi`]")) Demo.context
    = ([Print (json_dumps Demo.env Demo.log_line)], Ok r)
    /\ statusCode r = 500
    /\ body r
       = json_lit "{`error`: `Unexpected error`, `detail`: `'list' object has no attribute 'get'`}".
Proof.
  apply (non_object_body_is_a_500 Demo.env (Demo.http_event (json_lit "[`hi`]"))
           Demo.context Demo.log_line (PList [PStr (lit "hi")])).
  - run.
  - run.
  - discriminate.
Defined.

(** X8. A [text] that is truthy and not a string (a number, [true], a
    non-empty array or object) is not a validation failure either:
    [.strip] raises [AttributeError] and the answer is a 500 whose body
    is labelled ["Unexpected error"] and names the type; no client is
    called. *)
Theorem non_string_text_is_a_500
    (env : Env) (event : pyval) (context : LambdaContext) (line : pyval)
    (d : list (pystr * pyval)) (v : pyval) :
  request_received context event = Ok line ->
  _parse_body env event = Ok (PDict d) ->
  dict_get d (lit "text") = Some v ->
  truthy v = true ->
  (forall s, v <> PStr s) ->
  exists r,
    lambda_handler env event context = ([Print (json_dumps env line)], Ok r)
    /\ statusCode r = 500
    /\ body r
       = json_lit "{`error`: `Unexpected error`, `detail`: `'" ++ type_name v
         ++ json_lit "' object has no attribute 'strip'`}".
Proof.
  intros Hl Hp Ht Htruthy Hv.
  exists (_json_response env 500
            (unexpected_payload
               (lit "'" ++ type_name v ++ lit "' object has no attribute 'strip'"))).
  split; [|split; [reflexivity|apply no_strip_body_text]].
  rewrite (lambda_handler_read_error env event context line Hl (PDict d)
             (mkExc AttributeError
                (lit "'" ++ type_name v ++ lit "' object has no attribute 'strip'")) Hp).
  - now rewrite except_attribute_error.
  - unfold _read_inputs. cbn [py_get rbind]. unfold get_or, py_or.
    now rewrite Ht, Htruthy, (py_strip_non_str v Hv).
Qed.

Lemma non_string_text_is_a_500_witness :
  exists r,
    lambda_handler Demo.env (Demo.http_event (json_lit "{`text`: 42}")) Demo.context
    = ([Print (json_dumps Demo.env Demo.log_line)], Ok r)
    /\ statusCode r = 500
    /\ body r
       = json_lit "{`error`: `Unexpected error`, `detail`: `'int' object has no attribute 'strip'`}".
Proof.
  apply (non_string_text_is_a_500 Demo.env (Demo.http_event (json_lit "{`text`: 42}"))
           Demo.context Demo.log_line [ (lit "text", PInt 42) ] (PInt 42)).
  - run.
  - run.
  - run.
  - reflexivity.
  - discriminate.
Defined.

(** ** Further properties: what every invocation keeps *)

Lemma py_get_raises (obj : pyval) (k : pystr) (default : pyval) (e : pyexc) :
  py_get obj k default = Raise e -> exc_cls e = AttributeError.
Proof. destruct obj; cbn; intros [= <-]; reflexivity. Qed.

Lemma py_strip_raises (v : pyval) (e : pyexc) :
  py_strip v = Raise e -> exc_cls e = AttributeError.
Proof. destruct v; cbn; intros [= <-]; reflexivity. Qed.

(** [_read_inputs] raises nothing but [ValueError] and [AttributeError]. *)
Lemma read_inputs_raises (env : Env) (request : pyval) (e : pyexc) :
  _read_inputs env request = Raise e ->
  exc_cls e = ValueError \/ exc_cls e = AttributeError.
Proof.
  unfold _read_inputs.
  destruct (py_get request (lit "text") PNone) as [t|e0] eqn:H1; cbn [rbind];
    [|intros [= <-]; right; exact (py_get_raises _ _ _ _ H1)].
  destruct (py_strip (py_or t (PStr (lit "")))) as [text|e0] eqn:H2; cbn [rbind];
    [|intros [= <-]; right; exact (py_strip_raises _ _ H2)].
  destruct (negb (truthy (PStr text))); [intros [= <-]; now left|].
  destruct (len text >? MAX_CHARS env); [intros [= <-]; now left|].
  destruct (py_get request (lit "format") PNone) as [f|e0] eqn:H3; cbn [rbind];
    [|intros [= <-]; right; exact (py_get_raises _ _ _ _ H3)].
  destruct (py_strip (py_or f (PStr (lit "mp3")))) as [f'|e0] eqn:H4; cbn [rbind];
    [|intros [= <-]; right; exact (py_strip_raises _ _ H4)].
  destruct (dict_get SUPPORTED_FORMATS (lower_with (unicode_lower env) f'));
    cbn [negb]; [|intros [= <-]; now left].
  destruct (py_get request (lit "voiceId") PNone) as [v|e0] eqn:H5; cbn [rbind];
    [|intros [= <-]; right; exact (py_get_raises _ _ _ _ H5)].
  destruct (py_strip (py_or v (PStr DEFAULT_VOICE))) as [voice|e0] eqn:H6; cbn [rbind];
    [|intros [= <-]; right; exact (py_strip_raises _ _ H6)].
  destruct (py_get request (lit "useSsml") (PBool false)) as [s|e0] eqn:H7; cbn [rbind];
    [discriminate|intros [= <-]; right; exact (py_get_raises _ _ _ _ H7)].
Qed.

(** [_parse_body] raises [AttributeError], what [b64decode] raised, or
    its own [ValueError]. *)
Lemma parse_body_raises (env : Env) (event : pyval) (e : pyexc) :
  _parse_body env event = Raise e ->
  exc_cls e = AttributeError
  \/ (exists raw, b64decode env raw = Raise e)
  \/ e = mkExc ValueError (lit "Invalid JSON body").
Proof.
  unfold _parse_body.
  destruct (py_get event (lit "body") PNone) as [b|e0] eqn:H1; cbn [rbind];
    [|intros [= <-]; left; exact (py_get_raises _ _ _ _ H1)].
  destruct (py_get event (lit "isBase64Encoded") PNone) as [enc|e0] eqn:H2; cbn [rbind];
    [|intros [= <-]; left; exact (py_get_raises _ _ _ _ H2)].
  destruct (truthy enc).
  - destruct (b64decode env (py_or b (PStr (lit "{}")))) as [decoded|e0] eqn:H3;
      cbn [rbind];
      [|intros [= <-]; right; left; exists (py_or b (PStr (lit "{}"))); exact H3].
    destruct (json_loads env (FromBytes decoded)); [discriminate|].
    intros [= <-]. now right; right.
  - cbn [rbind].
    destruct (json_loads env (FromValue (py_or b (PStr (lit "{}"))))); [discriminate|].
    intros [= <-]. now right; right.
Qed.

Lemma except_clauses_status (env : Env) (e : pyexc) (r : response) :
  except_clauses env e = Ok r -> statusCode r = 400 \/ statusCode r = 500.
Proof.
  unfold except_clauses.
  destruct (is_ValueError e); [intros [= <-]; now left|].
  destruct (is_aws_error e); [intros [= <-]; now right|].
  destruct (is_Exception e); [intros [= <-]; now right|discriminate].
Qed.

Lemma class_is_exception (e : pyexc) :
  exc_cls e = ValueError \/ exc_cls e = AttributeError -> is_Exception e = true.
Proof. unfold is_Exception. now intros [-> | ->]. Qed.

(** X9. The handler has three status codes: every response it returns is
    a 200, a 400 or a 500. *)
Theorem status_is_200_400_or_500
    (env : Env) (event : pyval) (context : LambdaContext)
    (t : list call) (r : response) :
  lambda_handler env event context = (t, Ok r) ->
  statusCode r = 200 \/ statusCode r = 400 \/ statusCode r = 500.
Proof.
  destruct (request_received context event) as [line|e] eqn:Hl.
  - rewrite (lambda_handler_logged env event context line Hl).
    destruct (try_block env event) as [t' [r'|e]] eqn:Ht; cbn [fst snd].
    + intros [= _ <-]. destruct (try_block_response _ _ _ _ Ht) as [p ->]. now left.
    + intros [= _ He]. right. exact (except_clauses_status env e r He).
  - unfold lambda_handler. rewrite Hl. discriminate.
Qed.

Lemma status_is_200_400_or_500_witness :
  statusCode Demo.hello_response = 200
  \/ statusCode Demo.hello_response = 400
  \/ statusCode Demo.hello_response = 500.
Proof.
  apply (status_is_200_400_or_500 Demo.env Demo.hello_event Demo.context
           (Print (json_dumps Demo.env Demo.log_line) :: Demo.hello_trace)).
  run.
Defined.

(** X10. A 200 is the answer of a completed request only: when the
    handler returns status 200, the synthesis client gave audio, that
    audio was written under the key of the body, and the URL of the body
    is what the storage client signed for that key. *)
Theorem a_200_means_stored_and_signed
    (env : Env) (event : pyval) (context : LambdaContext)
    (t : list call) (r : response) :
  lambda_handler env event context = (t, Ok r) ->
  statusCode r = 200 ->
  exists line kwargs resp audio key ctype url voice fmt ssml,
    t = [ Print (json_dumps env line);
          SynthesizeSpeech kwargs;
          PutObject (AUDIO_BUCKET env) key audio ctype;
          GeneratePresignedUrl (lit "get_object") (AUDIO_BUCKET env) key
            (URL_EXPIRY_SECONDS env) ]
    /\ polly_synthesize_speech env kwargs = Ok resp
    /\ AudioStream resp = Some (Ok audio)
    /\ s3_put_object env (AUDIO_BUCKET env) key audio ctype = Ok tt
    /\ s3_generate_presigned_url env (lit "get_object") (AUDIO_BUCKET env) key
         (URL_EXPIRY_SECONDS env) = Ok url
    /\ r = _json_response env 200
             (PDict [ (lit "audioUrl", PStr url);
                      (lit "bucket", PStr (AUDIO_BUCKET env));
                      (lit "key", PStr key);
                      (lit "voiceId", PStr voice);
                      (lit "format", PStr fmt);
                      (lit "contentType", PStr ctype);
                      (lit "ssml", PBool ssml) ]).
Proof.
  intros H Hstatus.
  assert (Hno : forall e, except_clauses env e = Ok r -> False).
  { intros e He. destruct (except_clauses_status env e r He); lia. }
  destruct (request_received context event) as [line|e] eqn:Hl;
    [|unfold lambda_handler in H; rewrite Hl in H; discriminate].
  destruct (_parse_body env event) as [request|e] eqn:Hp;
    [|rewrite (lambda_handler_parse_error env event context line Hl e Hp) in H;
      injection H as _ H; now destruct (Hno e)].
  destruct (_read_inputs env request) as [[[[text voice] fmt] ssml]|e] eqn:Hr;
    [|rewrite (lambda_handler_read_error env event context line Hl request e Hp Hr) in H;
      injection H as _ H; now destruct (Hno e)].
  destruct (lambda_handler_synthesis env event context line request text voice fmt ssml
              Hl Hp Hr) as (entry & _ & Hrun).
  rewrite Hrun in H. clear Hrun.
  destruct (polly_synthesize_speech env _) as [resp|e] eqn:Hpolly;
    [|injection H as _ H; now destruct (Hno e)].
  destruct (AudioStream resp) as [[audio|e]|] eqn:Hstream;
    [|injection H as _ H; now destruct (Hno e)
     |injection H as _ H; rewrite <- H in Hstatus; discriminate].
  cbn zeta in H.
  destruct (s3_put_object env _ _ _ _) as [[]|e] eqn:Hput;
    [|injection H as _ H; now destruct (Hno e)].
  destruct (s3_generate_presigned_url env _ _ _ _) as [url|e] eqn:Hsign;
    [|injection H as _ H; now destruct (Hno e)].
  injection H as <- <-.
  exists line, (synthesis_kwargs voice fmt text ssml), resp, audio,
    (object_key env fmt), (fst entry), url, voice, fmt, ssml.
  now repeat split.
Qed.

Lemma a_200_means_stored_and_signed_witness :
  exists line kwargs resp audio key ctype url voice fmt ssml,
    Print (json_dumps Demo.env Demo.log_line) :: Demo.hello_trace
    = [ Print (json_dumps Demo.env line);
        SynthesizeSpeech kwargs;
        PutObject (AUDIO_BUCKET Demo.env) key audio ctype;
        GeneratePresignedUrl (lit "get_object") (AUDIO_BUCKET Demo.env) key
          (URL_EXPIRY_SECONDS Demo.env) ]
    /\ polly_synthesize_speech Demo.env kwargs = Ok resp
    /\ AudioStream resp = Some (Ok audio)
    /\ s3_put_object Demo.env (AUDIO_BUCKET Demo.env) key audio ctype = Ok tt
    /\ s3_generate_presigned_url Demo.env (lit "get_object") (AUDIO_BUCKET Demo.env) key
         (URL_EXPIRY_SECONDS Demo.env) = Ok url
    /\ Demo.hello_response
       = _json_response Demo.env 200
           (PDict [ (lit "audioUrl", PStr url);
                    (lit "bucket", PStr (AUDIO_BUCKET Demo.env));
                    (lit "key", PStr key);
                    (lit "voiceId", PStr voice);
                    (lit "format", PStr fmt);
                    (lit "contentType", PStr ctype);
                    (lit "ssml", PBool ssml) ]).
Proof.
  apply (a_200_means_stored_and_signed Demo.env Demo.hello_event Demo.context).
  - run.
  - reflexivity.
Defined.


(** What [try_block] raises comes from [_parse_body], from
    [_read_inputs], or from a client. *)
Lemma try_block_raises_exception
    (env : Env) (event : pyval) (t : list call) (e : pyexc) :
  clients_raise_exceptions env ->
  try_block env event = (t, Raise e) ->
  is_Exception e = true.
Proof.
  intros (Hb64 & Hpolly & Hstream & Hput & Hsign) H.
  destruct (_parse_body env event) as [request|e0] eqn:Hp.
  - destruct (_read_inputs env request) as [[[[text voice] fmt] ssml]|e0] eqn:Hr.
    + rewrite (try_block_accepted env event request text voice fmt ssml Hp Hr) in H.
      destruct (read_inputs_ok_inv _ _ _ _ _ _ Hr)
        as (d & f & entry & _ & _ & _ & _ & He & _).
      rewrite (synthesize_run env text voice fmt ssml entry He) in H.
      destruct (polly_synthesize_speech env _) as [resp|e0] eqn:Hp0;
        [|injection H as _ <-; exact (Hpolly _ _ Hp0)].
      destruct (AudioStream resp) as [[audio|e0]|] eqn:Hs;
        [|injection H as _ <-; exact (Hstream _ _ _ Hp0 Hs)
         |injection H as _ <-; reflexivity].
      cbn [bind] in H. rewrite (store_audio_run env fmt audio entry He) in H.
      destruct (s3_put_object env _ _ _ _) as [u|e0] eqn:Hp1;
        [|injection H as _ <-; exact (Hput _ _ _ _ _ Hp1)].
      destruct (s3_generate_presigned_url env _ _ _ _) as [url|e0] eqn:Hp2;
        [discriminate|injection H as _ <-; exact (Hsign _ _ _ _ _ Hp2)].
    + rewrite (try_block_read_error env event request e0 Hp Hr) in H.
      injection H as _ <-. exact (class_is_exception e0 (read_inputs_raises _ _ _ Hr)).
  - rewrite (try_block_parse_error env event e0 Hp) in H. injection H as _ <-.
    destruct (parse_body_raises env event e0 Hp) as [Hc|[[raw Hraw]| ->]].
    + apply class_is_exception. now right.
    + exact (Hb64 raw e0 Hraw).
    + reflexivity.
Qed.

(** X12. Once the log line is out, the handler always answers: when
    whatever the runtime and the clients raise is an [Exception], every
    invocation whose log line could be built returns a response, and no
    exception leaves [lambda_handler]. *)
Theorem handler_answers_after_the_log_line
    (env : Env) (event : pyval) (context : LambdaContext) (line : pyval) :
  clients_raise_exceptions env ->
  request_received context event = Ok line ->
  exists t r, lambda_handler env event context = (t, Ok r).
Proof.
  intros Hclients Hl.
  apply (errors_inside_try_are_answered env event context line Hl).
  intros t e Ht. exact (try_block_raises_exception env event t e Hclients Ht).
Qed.

Lemma demo_clients_raise_exceptions : clients_raise_exceptions Faults.env_put_fails.
Proof.
  repeat split.
  - intros v e H. unfold Faults.env_put_fails, Faults.with_storage in H. cbn in H.
    unfold Runtime.b64decode in H.
    destruct v; try (injection H as <-; reflexivity).
    destruct (forallb _ s); [|injection H as <-; reflexivity].
    revert H. generalize (@nil N). generalize 0%N at 1. generalize 0%nat at 2.
    generalize 0%nat at 1.
    induction s as [|c s IH]; intros q p l out; cbn [Runtime.a2b_base64].
    + destruct q as [|[|q]]; [discriminate| |]; intros [= <-]; reflexivity.
    + destruct (c =? 61)%N.
      * destruct (2 <=? q)%nat; [|apply IH].
        destruct (4 <=? q + S p)%nat; [discriminate|apply IH].
      * destruct (Runtime.b64_value c); [|apply IH].
        destruct q as [|[|[|q]]]; apply IH.
  - discriminate.
  - intros kwargs resp e [= <-]. discriminate.
  - intros bucket key data ctype e [= <-]. reflexivity.
  - discriminate.
Qed.

Lemma handler_answers_after_the_log_line_witness :
  exists t r,
    lambda_handler Faults.env_put_fails
      (Faults.flagged_event (lit "eyJ0ZXh0IjogImhpIn0")) Demo.context
    = (t, Ok r).
Proof.
  apply (handler_answers_after_the_log_line Faults.env_put_fails
           (Faults.flagged_event (lit "eyJ0ZXh0IjogImhpIn0")) Demo.context Demo.log_line).
  - exact demo_clients_raise_exceptions.
  - run.
Defined.

(** X13. The log line is built before the [try]. It can be built exactly
    when the event is a dict whose [requestContext], if present, is a
    dict whose [http], if present, is a dict; otherwise the
    [AttributeError] of the failing [.get] leaves [lambda_handler] before
    anything is printed or called. *)
Theorem log_line_needs_dict_request_context
    (env : Env) (event : pyval) (context : LambdaContext) :
  ((exists line, request_received context event = Ok line)
   <-> (exists d rc h,
          event = PDict d
          /\ get_or d (lit "requestContext") (PDict []) = PDict rc
          /\ get_or rc (lit "http") (PDict []) = PDict h))
  /\ (forall e,
        request_received context event = Raise e ->
        lambda_handler env event context = ([], Raise e)
        /\ exc_cls e = AttributeError).
Proof.
  split; [split|].
  - intros [line H]. unfold request_received in H.
    destruct event as [| | | | | |d]; try discriminate.
    cbn [py_get rbind] in H.
    destruct (get_or d (lit "requestContext") (PDict [])) as [| | | | | |rc] eqn:Hrc;
      try discriminate.
    cbn [py_get rbind] in H.
    destruct (get_or rc (lit "http") (PDict [])) as [| | | | | |h] eqn:Hh;
      try discriminate.
    now exists d, rc, h.
  - intros (d & rc & h & -> & Hrc & Hh). unfold request_received.
    cbn [py_get rbind]. rewrite Hrc. cbn [py_get rbind]. rewrite Hh.
    cbn [py_get rbind]. now eexists.
  - intros e H. split; [unfold lambda_handler; now rewrite H|].
    unfold request_received in H.
    destruct (py_get event (lit "requestContext") (PDict [])) as [rc|e0] eqn:H1;
      cbn [rbind] in H; [|injection H as <-; exact (py_get_raises _ _ _ _ H1)].
    destruct (py_get rc (lit "http") (PDict [])) as [http|e0] eqn:H2;
      cbn [rbind] in H; [|injection H as <-; exact (py_get_raises _ _ _ _ H2)].
    destruct (py_get http (lit "sourceIp") PNone) as [ip|e0] eqn:H3;
      cbn [rbind] in H; [|injection H as <-; exact (py_get_raises _ _ _ _ H3)].
    destruct (py_get event (lit "rawPath") PNone) as [route|e0] eqn:H4;
      cbn [rbind] in H; [discriminate|injection H as <-; exact (py_get_raises _ _ _ _ H4)].
Qed.

(** ** Further properties: what an accepted request holds *)

Lemma lstrip_split (s : pystr) :
  exists before, s = before ++ lstrip s /\ forallb is_space before = true.
Proof.
  induction s as [|c s (before & H1 & H2)]; [now exists []|].
  cbn [lstrip]. destruct (is_space c) eqn:E; [|now exists []].
  exists (c :: before). split; [cbn; now f_equal|].
  cbn [forallb]. now rewrite E.
Qed.

Lemma lstrip_head (s : pystr) (c : N) (rest : pystr) :
  lstrip s = c :: rest -> is_space c = false.
Proof.
  induction s as [|a s IH]; cbn [lstrip]; [discriminate|].
  destruct (is_space a) eqn:E; [exact IH|].
  now intros [= <- _].
Qed.

Lemma forallb_rev {A} (f : A -> bool) (l : list A) :
  forallb f l = true -> forallb f (rev l) = true.
Proof.
  rewrite !forallb_forall. intros H x Hx. apply H. now apply in_rev.
Qed.

Lemma rstrip_split (s : pystr) :
  exists after, s = rstrip s ++ after /\ forallb is_space after = true.
Proof.
  unfold rstrip. destruct (lstrip_split (rev s)) as (before & H1 & H2).
  exists (rev before). split; [|now apply forallb_rev].
  now rewrite <- rev_app_distr, <- H1, rev_involutive.
Qed.

(** [strip] cuts whitespace off both ends and nothing else. *)
Lemma strip_split (s : pystr) :
  exists before after,
    s = before ++ strip s ++ after
    /\ forallb is_space before = true
    /\ forallb is_space after = true
    /\ (forall c rest, strip s = c :: rest -> is_space c = false)
    /\ (forall c rest, rev (strip s) = c :: rest -> is_space c = false).
Proof.
  destruct (lstrip_split s) as (before & H1 & H2).
  destruct (rstrip_split (lstrip s)) as (after & H3 & H4).
  exists before, after. unfold strip. repeat split; try assumption.
  - now rewrite <- H3.
  - intros c rest Hc. rewrite Hc in H3. exact (lstrip_head s c _ H3).
  - intros c rest Hc. unfold rstrip in Hc. rewrite rev_involutive in Hc.
    exact (lstrip_head _ c rest Hc).
Qed.

(** X14. What [_read_inputs] hands on as the text is the request's
    [text], which is a string, without the whitespace at its two ends and
    otherwise unchanged: it is not empty, no longer than [MAX_CHARS], and
    neither begins nor ends with whitespace. *)
Theorem accepted_text_is_trimmed
    (env : Env) (request : pyval) (text voice fmt : pystr) (ssml : bool) :
  _read_inputs env request = Ok (text, voice, fmt, ssml) ->
  exists d s before after,
    request = PDict d
    /\ dict_get d (lit "text") = Some (PStr s)
    /\ s = before ++ text ++ after
    /\ forallb is_space before = true
    /\ forallb is_space after = true
    /\ text <> []
    /\ len text <= MAX_CHARS env
    /\ (forall c rest, text = c :: rest -> is_space c = false)
    /\ (forall c rest, rev text = c :: rest -> is_space c = false).
Proof.
  intros Hr.
  destruct (read_inputs_ok_inv _ _ _ _ _ _ Hr)
    as (d & f & entry & -> & (Ht & Hne & Hlen) & _).
  unfold get_or, py_or in Ht.
  destruct (dict_get d (lit "text")) as [v|] eqn:Hd;
    [|cbn in Ht; injection Ht as <-; congruence].
  destruct (truthy v) eqn:Hv; [|cbn in Ht; injection Ht as <-; congruence].
  destruct v; try discriminate. cbn [py_strip] in Ht. injection Ht as <-.
  destruct (strip_split s) as (before & after & H1 & H2 & H3 & H4 & H5).
  exists d, s, before, after. repeat split; assumption.
Qed.

Lemma accepted_text_is_trimmed_witness :
  exists d s before after,
    PDict [ (lit "text", PStr (lit "  Hello world ")); (lit "format", PStr (lit "PCM")) ]
    = PDict d
    /\ dict_get d (lit "text") = Some (PStr s)
    /\ s = before ++ lit "Hello world" ++ after
    /\ forallb is_space before = true
    /\ forallb is_space after = true
    /\ lit "Hello world" <> []
    /\ len (lit "Hello world") <= MAX_CHARS Demo.env
    /\ (forall c rest, lit "Hello world" = c :: rest -> is_space c = false)
    /\ (forall c rest, rev (lit "Hello world") = c :: rest -> is_space c = false).
Proof.
  apply (accepted_text_is_trimmed Demo.env
           (PDict [ (lit "text", PStr (lit "  Hello world ")); (lit "format", PStr (lit "PCM")) ])
           (lit "Hello world") (lit "Joanna") (lit "pcm") false).
  run.
Defined.

(** X15. A request that carries a text and nothing else gets the
    defaults: the voice ["Joanna"], the format ["mp3"] and plain text. The
    limit is inclusive: a trimmed text of exactly [MAX_CHARS] code points
    is accepted. *)
Theorem bare_text_gets_the_defaults
    (env : Env) (d : list (pystr * pyval)) (s : pystr) :
  dict_get d (lit "text") = Some (PStr s) ->
  strip s <> [] ->
  len (strip s) <= MAX_CHARS env ->
  dict_get d (lit "format") = None ->
  dict_get d (lit "voiceId") = None ->
  dict_get d (lit "useSsml") = None ->
  _read_inputs env (PDict d) = Ok (strip s, lit "Joanna", lit "mp3", false).
Proof.
  intros Ht Hne Hlen Hf Hv Hs.
  assert (Hacc : text_accepted env d (strip s)).
  { repeat split; try assumption. unfold get_or. rewrite Ht.
    destruct s as [|c s]; [now destruct Hne|reflexivity]. }
  rewrite (read_inputs_text_accepted env d (strip s) Hacc).
  unfold get_or. now rewrite Hf, Hv, Hs.
Qed.

Lemma bare_text_gets_the_defaults_witness :
  _read_inputs Demo.env_short (PDict [ (lit "text", PStr (lit " 0123456789 ")) ])
  = Ok (strip (lit " 0123456789 "), lit "Joanna", lit "mp3", false).
Proof.
  apply (bare_text_gets_the_defaults Demo.env_short
           [ (lit "text", PStr (lit " 0123456789 ")) ] (lit " 0123456789 ")).
  - reflexivity.
  - discriminate.
  - cbn. lia.
  - reflexivity.
  - reflexivity.
  - reflexivity.
Defined.

(** X16. What [_read_inputs] hands on is normalised: the format is one
    of the three tokens [mp3], [ogg_vorbis], [pcm] (the lower-cased,
    trimmed field), and the voice is the default or the trimmed [voiceId]
    string of the request. *)
Theorem accepted_request_is_normalised
    (env : Env) (request : pyval) (text voice fmt : pystr) (ssml : bool) :
  _read_inputs env request = Ok (text, voice, fmt, ssml) ->
  (fmt = lit "mp3" \/ fmt = lit "ogg_vorbis" \/ fmt = lit "pcm")
  /\ exists d,
       request = PDict d
       /\ (voice = lit "Joanna"
           \/ exists s, dict_get d (lit "voiceId") = Some (PStr s)
                        /\ s <> [] /\ voice = strip s).
Proof.
  intros Hr.
  destruct (read_inputs_ok_inv _ _ _ _ _ _ Hr)
    as (d & f & entry & -> & _ & _ & _ & He & Hv & _).
  split.
  - destruct (supported_cases fmt entry He) as [[-> _]|[[-> _]|[-> _]]]; auto.
  - exists d. split; [reflexivity|].
    unfold get_or, py_or in Hv.
    destruct (dict_get d (lit "voiceId")) as [v|] eqn:Hd;
      [|cbn in Hv; injection Hv as <-; now left].
    destruct (truthy v) eqn:Htruthy; [|cbn in Hv; injection Hv as <-; now left].
    destruct v; try discriminate. cbn [py_strip] in Hv. injection Hv as <-.
    right. exists s. repeat split. intros ->. discriminate.
Qed.

Lemma accepted_request_is_normalised_witness :
  (lit "ogg_vorbis" = lit "mp3" \/ lit "ogg_vorbis" = lit "ogg_vorbis"
   \/ lit "ogg_vorbis" = lit "pcm")
  /\ exists d,
       PDict [ (lit "text", PStr (lit "hi")); (lit "format", PStr (lit " OGG_Vorbis"));
               (lit "voiceId", PStr (lit " Brian ")) ]
       = PDict d
       /\ (lit "Brian" = lit "Joanna"
           \/ exists s, dict_get d (lit "voiceId") = Some (PStr s)
                        /\ s <> [] /\ lit "Brian" = strip s).
Proof.
  apply (accepted_request_is_normalised Demo.env
           (PDict [ (lit "text", PStr (lit "hi")); (lit "format", PStr (lit " OGG_Vorbis"));
                    (lit "voiceId", PStr (lit " Brian ")) ])
           (lit "hi") (lit "Brian") (lit "ogg_vorbis") false).
  run.
Defined.

(** ** Further properties: the body of a response *)

Lemma hex_digit_printable (d : N) : (d < 16)%N -> printable (hex_digit d) = true.
Proof.
  intros H. unfold printable, hex_digit.
  destruct (N.ltb_spec d 10); apply andb_true_iff; split; apply N.leb_le; lia.
Qed.

Lemma hex_digits_printable (k : nat) (n : N) :
  forallb printable (hex_digits k n) = true.
Proof.
  revert n. induction k as [|k IH]; intros n; [reflexivity|].
  cbn [hex_digits]. rewrite forallb_app, IH. cbn [forallb].
  rewrite hex_digit_printable; [reflexivity|].
  change 15%N with (N.ones 4). rewrite N.land_ones.
  now apply N.mod_lt.
Qed.

Lemma json_escape_printable (c : N) : forallb printable (json_escape c) = true.
Proof.
  unfold json_escape.
  destruct (c =? 92)%N; [reflexivity|].
  destruct (c =? 34)%N; [reflexivity|].
  destruct (c =? 8)%N; [reflexivity|].
  destruct (c =? 12)%N; [reflexivity|].
  destruct (c =? 10)%N; [reflexivity|].
  destruct (c =? 13)%N; [reflexivity|].
  destruct (c =? 9)%N; [reflexivity|].
  destruct ((32 <=? c) && (c <=? 126))%N eqn:E;
    [cbn [forallb]; unfold printable; now rewrite E|].
  destruct (c <? 65536)%N; cbn zeta;
    rewrite ?forallb_app, ?hex_digits_printable; reflexivity.
Qed.

Lemma json_str_printable (s : pystr) : forallb printable (json_str s) = true.
Proof.
  unfold json_str. rewrite !forallb_app.
  assert (H : forallb printable (flat_map json_escape s) = true).
  { induction s as [|c s IH]; [reflexivity|].
    cbn [flat_map]. now rewrite forallb_app, json_escape_printable, IH. }
  now rewrite H.
Qed.

Lemma join_printable (sep : pystr) (parts : list pystr) :
  forallb printable sep = true ->
  Forall (fun p => forallb printable p = true) parts ->
  forallb printable (join sep parts) = true.
Proof.
  intros Hsep H. induction H as [|p rest Hp Hrest IH]; [reflexivity|].
  destruct rest as [|q rest]; [exact Hp|].
  change (join sep (p :: q :: rest)) with (p ++ sep ++ join sep (q :: rest)).
  now rewrite !forallb_app, Hp, Hsep, IH.
Qed.

(** The payloads of the handler: a dict whose values are strings and
    booleans. *)
Lemma flat_payload_printable (env : Env) (l : list (pystr * pyval)) :
  Forall (fun kv => (exists s, snd kv = PStr s) \/ (exists b, snd kv = PBool b)) l ->
  forallb printable (json_dumps env (PDict l)) = true.
Proof.
  intros H. unfold json_dumps. cbn [json_dumps_with].
  rewrite !forallb_app. rewrite join_printable; [reflexivity|reflexivity|].
  induction H as [|[k v] rest Hv Hrest IH]; constructor; [|exact IH].
  rewrite !forallb_app, json_str_printable. cbn [snd] in Hv.
  destruct Hv as [[s ->]|[[] ->]]; cbn [json_dumps_with];
    rewrite ?json_str_printable; reflexivity.
Qed.

Lemma except_clauses_payload (env : Env) (e : pyexc) (r : response) :
  except_clauses env e = Ok r ->
  forallb printable (body r) = true.
Proof.
  unfold except_clauses.
  destruct (is_ValueError e); [|destruct (is_aws_error e); [|destruct (is_Exception e)]];
    try discriminate; intros [= <-]; cbn [body _json_response];
    apply flat_payload_printable;
    repeat apply Forall_cons; try apply Forall_nil; cbn [snd]; eauto.
Qed.

(** X17. The body of every response is printable ASCII, whatever the
    request, the voice, the signed URL or the text of an exception holds:
    [json.dumps] escapes every other code point. *)
Theorem response_body_is_printable_ascii
    (env : Env) (event : pyval) (context : LambdaContext)
    (t : list call) (r : response) :
  lambda_handler env event context = (t, Ok r) ->
  forallb printable (body r) = true.
Proof.
  destruct (request_received context event) as [line|e] eqn:Hl;
    [|unfold lambda_handler; rewrite Hl; discriminate].
  rewrite (lambda_handler_logged env event context line Hl).
  destruct (try_block env event) as [t' [r'|e]] eqn:Ht; cbn [fst snd].
  - intros [= _ <-]. unfold try_block in Ht.
    apply bind_ok_inv in Ht as (t1 & request & t2 & _ & Ht & _).
    apply bind_ok_inv in Ht as (t3 & [[[text voice] fmt] ssml] & t4 & _ & Ht & _).
    apply bind_ok_inv in Ht as (t5 & audio & t6 & _ & Ht & _).
    apply bind_ok_inv in Ht as (t7 & [[key ctype] url] & t8 & _ & Ht & _).
    injection Ht as _ <-. cbn [body _json_response].
    apply flat_payload_printable;
      repeat apply Forall_cons; try apply Forall_nil; cbn [snd]; eauto.
  - intros [= _ He]. exact (except_clauses_payload env e r He).
Qed.

Lemma response_body_is_printable_ascii_witness :
  forallb printable
    (body (_json_response Demo.env 200
             (PDict [ (lit "audioUrl", PStr Demo.hello_url);
                      (lit "bucket", PStr (lit "azubi-audio"));
                      (lit "key", PStr Demo.hello_key);
                      (lit "voiceId", PStr (lit "Zo" ++ [233%N]));
                      (lit "format", PStr (lit "mp3"));
                      (lit "contentType", PStr (lit "audio/mpeg"));
                      (lit "ssml", PBool false) ])))
  = true.
Proof.
  apply (response_body_is_printable_ascii Demo.env
           (Demo.http_event
              (json_lit "{`text`: `hi`, `voiceId`: `Zo" ++ [233%N] ++ json_lit "`}"))
           Demo.context
           (Print (json_dumps Demo.env Demo.log_line)
            :: [ SynthesizeSpeech
                   (synthesis_kwargs (lit "Zo" ++ [233%N]) (lit "mp3") (lit "hi") false);
                 PutObject (lit "azubi-audio") Demo.hello_key [x49; x44; x33]
                   (lit "audio/mpeg");
                 GeneratePresignedUrl (lit "get_object") (lit "azubi-audio")
                   Demo.hello_key 3600 ])).
  run.
Defined.

(** ** Further properties: options of the wrong type *)

(** X18. Once the text is accepted, a [format] that is truthy and not a
    string, or (with a supported format) a [voiceId] that is truthy and
    not a string, makes [.strip] raise [AttributeError]: the answer is a
    500 whose body is labelled ["Unexpected error"] and names the type,
    not a 400, and no client is called. *)
Theorem non_string_option_is_a_500
    (env : Env) (event : pyval) (context : LambdaContext) (line : pyval)
    (d : list (pystr * pyval)) (text : pystr) (v : pyval) :
  request_received context event = Ok line ->
  _parse_body env event = Ok (PDict d) ->
  text_accepted env d text ->
  truthy v = true ->
  (forall s, v <> PStr s) ->
  dict_get d (lit "format") = Some v
  \/ (dict_get d (lit "voiceId") = Some v
      /\ exists f entry,
           py_strip (py_or (get_or d (lit "format") PNone) (PStr (lit "mp3"))) = Ok f
           /\ dict_get SUPPORTED_FORMATS (lower_with (unicode_lower env) f) = Some entry) ->
  exists r,
    lambda_handler env event context = ([Print (json_dumps env line)], Ok r)
    /\ statusCode r = 500
    /\ body r
       = json_lit "{`error`: `Unexpected error`, `detail`: `'" ++ type_name v
         ++ json_lit "' object has no attribute 'strip'`}".
Proof.
  intros Hl Hp Ht Htruthy Hv Hfield.
  exists (_json_response env 500
            (unexpected_payload
               (lit "'" ++ type_name v ++ lit "' object has no attribute 'strip'"))).
  split; [|split; [reflexivity|apply no_strip_body_text]].
  rewrite (lambda_handler_read_error env event context line Hl (PDict d)
             (mkExc AttributeError
                (lit "'" ++ type_name v ++ lit "' object has no attribute 'strip'")) Hp).
  - now rewrite except_attribute_error.
  - rewrite (read_inputs_text_accepted env d text Ht).
    destruct Hfield as [Hf | (Hvoice & f & entry & Hf & He)].
    + unfold get_or at 1, py_or at 1.
      now rewrite Hf, Htruthy, (py_strip_non_str v Hv).
    + rewrite Hf. cbn [rbind]. rewrite He.
      unfold get_or at 1, py_or at 1.
      now rewrite Hvoice, Htruthy, (py_strip_non_str v Hv).
Qed.

Lemma non_string_option_is_a_500_witness :
  exists r,
    lambda_handler Demo.env
      (Demo.http_event (json_lit "{`text`: `hi`, `format`: `pcm`, `voiceId`: [`Joanna`]}"))
      Demo.context
    = ([Print (json_dumps Demo.env Demo.log_line)], Ok r)
    /\ statusCode r = 500
    /\ body r
       = json_lit "{`error`: `Unexpected error`, `detail`: `'list' object has no attribute 'strip'`}".
Proof.
  apply (non_string_option_is_a_500 Demo.env
           (Demo.http_event
              (json_lit "{`text`: `hi`, `format`: `pcm`, `voiceId`: [`Joanna`]}"))
           Demo.context Demo.log_line
           [ (lit "text", PStr (lit "hi")); (lit "format", PStr (lit "pcm"));
             (lit "voiceId", PList [PStr (lit "Joanna")]) ]
           (lit "hi") (PList [PStr (lit "Joanna")])).
  - run.
  - run.
  - split; [run|]. split; [discriminate|cbn; lia].
  - reflexivity.
  - discriminate.
  - right. split; [reflexivity|].
    exists (lit "pcm"), (lit "audio/wave", lit "pcm"). split; run.
Defined.

(** ** Further properties: the object key *)

Lemma hex_digit_inj (a b : N) :
  (a < 16)%N -> (b < 16)%N -> hex_digit a = hex_digit b -> a = b.
Proof.
  unfold hex_digit. intros Ha Hb.
  destruct (N.ltb_spec a 10), (N.ltb_spec b 10); lia.
Qed.

Lemma hex_digits_length (k : nat) (n : N) : List.length (hex_digits k n) = k.
Proof.
  revert n. induction k as [|k IH]; intros n; [reflexivity|].
  cbn [hex_digits]. rewrite length_app, IH. cbn. lia.
Qed.

Lemma land_15_lt (n : N) : (N.land n 15 < 16)%N.
Proof.
  change 15%N with (N.ones 4). rewrite N.land_ones. now apply N.mod_lt.
Qed.

(** [k] hexadecimal digits tell the number up to [16^k]. *)
Lemma hex_digits_inj (k : nat) (n m : N) :
  hex_digits k n = hex_digits k m ->
  (n mod 16 ^ N.of_nat k = m mod 16 ^ N.of_nat k)%N.
Proof.
  revert n m. induction k as [|k IH]; intros n m H.
  - cbn. now rewrite !N.mod_1_r.
  - cbn [hex_digits] in H. apply app_inj_tail in H as [Hhigh Hlow].
    apply IH in Hhigh.
    apply hex_digit_inj in Hlow; try apply land_15_lt.
    change 15%N with (N.ones 4) in Hlow. rewrite !N.land_ones in Hlow.
    rewrite !N.shiftr_div_pow2 in Hhigh.
    change (2 ^ 4)%N with 16%N in Hhigh, Hlow.
    rewrite Nat2N.inj_succ, N.pow_succ_r'.
    rewrite (N.Div0.mod_mul_r n 16), (N.Div0.mod_mul_r m 16).
    now rewrite Hhigh, Hlow.
Qed.

Lemma app_inj_length {A} (a b x y : list A) :
  List.length a = List.length b -> a ++ x = b ++ y -> a = b /\ x = y.
Proof.
  revert b. induction a as [|c a IH]; intros [|c' b]; cbn; try discriminate.
  - now intros _ ->.
  - intros [= Hlen] [= -> H]. destruct (IH b Hlen H) as [-> ->]. now split.
Qed.

Lemma str_of_uuid_length (u : N) : List.length (str_of_uuid u) = 36%nat.
Proof.
  unfold str_of_uuid. pose proof (hex_digits_length 32 u) as H.
  destruct (hex_digits 32 u) as [|? l]; [discriminate|].
  do 31 (destruct l as [|? l]; [discriminate|]).
  destruct l; [reflexivity|discriminate].
Qed.

Lemma str_of_uuid_inj (u v : N) :
  str_of_uuid u = str_of_uuid v -> hex_digits 32 u = hex_digits 32 v.
Proof.
  unfold str_of_uuid.
  pose proof (hex_digits_length 32 u) as Hu.
  pose proof (hex_digits_length 32 v) as Hv.
  destruct (hex_digits 32 u) as [|? l]; [discriminate|].
  do 31 (destruct l as [|? l]; [discriminate|]).
  destruct l; [|discriminate].
  destruct (hex_digits 32 v) as [|? l]; [discriminate|].
  do 31 (destruct l as [|? l]; [discriminate|]).
  destruct l; [|discriminate].
  cbn. intros H. injection H as -> -> -> -> -> -> -> -> -> -> -> -> -> -> -> ->
                                 -> -> -> -> -> -> -> -> -> -> -> -> -> -> -> ->.
  reflexivity.
Qed.

(** X19. Two invocations write under the same key only when they drew
    the same UUID and their formats have the same extension: the key
    tells the 128 bits of the UUID and the extension, whatever the
    request says otherwise. *)
Theorem equal_keys_come_from_equal_uuids (env1 env2 : Env) (fmt1 fmt2 : pystr) :
  object_key env1 fmt1 = object_key env2 fmt2 ->
  (uuid4 (urandom env1) mod 2 ^ 128 = uuid4 (urandom env2) mod 2 ^ 128)%N
  /\ extension fmt1 = extension fmt2.
Proof.
  unfold object_key. intros H.
  apply app_inv_head in H.
  apply app_inj_length in H as [Hu Hext];
    [|now rewrite !str_of_uuid_length].
  apply app_inv_head in Hext. split; [|exact Hext].
  apply str_of_uuid_inj in Hu.
  exact (hex_digits_inj 32 _ _ Hu).
Qed.

Lemma equal_keys_come_from_equal_uuids_witness :
  (uuid4 (urandom Demo.env) mod 2 ^ 128 = uuid4 (urandom Demo.env_short) mod 2 ^ 128)%N
  /\ extension (lit "ogg_vorbis") = extension (lit "ogg_vorbis").
Proof.
  apply (equal_keys_come_from_equal_uuids Demo.env Demo.env_short).
  reflexivity.
Defined.
